(** * core/llm/index.ts: the model-abstraction layer of [BaseLLM]

    A shallow embedding of [core/llm/index.ts]: the capability and
    template-family registry ([modelSupportsImages],
    [autodetectTemplateType], [autodetectTemplateFunction],
    [autodetectPromptTemplates]) and the streaming pipeline of the
    abstract class [BaseLLM] ([streamComplete], [complete], [chat],
    [streamChat] and the protected transports they dispatch to).

    JavaScript strings are modelled by [string]; model names and markers
    are ASCII, and [toLowerCase] folds the letters A-Z.  An options object
    is the list of its properties in insertion order; the table of edit
    templates and the table of context lengths are finite maps.  An async
    generator is modelled by its complete run, as a consumer that drains
    it sees it: the finite trace of what it emits and the way it ends.
    What the file imports but does not define ([mergeJson], the functions
    of [./countTokens], the constants, the host messaging) is a parameter
    of the pipeline. *)

From stdpp Require Import base option list strings gmap pretty.
From Stdlib Require Import ZArith Ascii String.

Local Open Scope string_scope.

(** ** JavaScript string primitives *)

Module JsString.

(** [s.startsWith(t)] *)
Fixpoint startsWith (s t : string) : bool :=
  match t, s with
  | EmptyString, _ => true
  | String _ _, EmptyString => false
  | String b t', String a s' => if Ascii.eqb a b then startsWith s' t' else false
  end.

(** [s.includes(t)]: [t] occurs in [s] as a contiguous run. *)
Fixpoint includes (s t : string) : bool :=
  startsWith s t ||
  match s with
  | EmptyString => false
  | String _ s' => includes s' t
  end.

Definition lower_ascii (c : ascii) : ascii :=
  let n := nat_of_ascii c in
  if (65 <=? n)%nat && (n <=? 90)%nat then ascii_of_nat (n + 32) else c.

(** [s.toLowerCase()] *)
Fixpoint toLowerCase (s : string) : string :=
  match s with
  | EmptyString => EmptyString
  | String c s' => String (lower_ascii c) (toLowerCase s')
  end.

(** [arr.includes(x)] on an array of strings. *)
Definition array_includes (arr : list string) (x : string) : bool :=
  existsb (String.eqb x) arr.

(** [arr.join("")] *)
Definition concat (l : list string) : string := fold_right String.append "" l.

End JsString.
Import JsString.

(** ** ModelCapabilityRegistry *)

(** [ModelProvider] is a union of string literals; at run time a provider
    is the string itself. *)
Definition ModelProvider := string.

Definition PROVIDER_HANDLES_TEMPLATING : list ModelProvider :=
  ["lmstudio"; "openai"; "ollama"; "together"].

Definition PROVIDER_SUPPORTS_IMAGES : list ModelProvider :=
  ["openai"; "ollama"; "google-palm"; "free-trial"].

Definition modelSupportsImages (provider : ModelProvider) (model : string) : bool :=
  if negb (array_includes PROVIDER_SUPPORTS_IMAGES provider) then false
  else if includes model "llava" then true
  else if array_includes ["gpt-4-vision-preview"] model then true
  else if String.eqb model "gemini-ultra" &&
          (String.eqb provider "google-palm" || String.eqb provider "free-trial")
  then true
  else false.

Definition PARALLEL_PROVIDERS : list ModelProvider :=
  ["anthropic"; "bedrock"; "deepinfra"; "gemini"; "google-palm";
   "huggingface-inference-api"; "huggingface-tgi"; "mistral"; "free-trial";
   "replicate"; "together"].

(** [llmCanGenerateInParallel(llm)] reads [llm.providerName] and [llm.model]. *)
Definition llmCanGenerateInParallel (providerName : ModelProvider) (model : string) : bool :=
  if String.eqb providerName "openai" then includes model "gpt"
  else array_includes PARALLEL_PROVIDERS providerName.

(** The keys of the [Record<TemplateType, any>] literal in
    [autodetectTemplateFunction]. *)
Inductive TemplateType : Set :=
| llama2 | alpaca | phi2 | phind | zephyr | anthropic | chatml | deepseek
| openchat | xwin_coder | neural_chat | llava | codellama_70b | none.

#[global] Instance TemplateType_eq_dec : EqDecision TemplateType.
Proof. solve_decision. Defined.

(** [autodetectTemplateType(model): TemplateType | undefined];
    [None] is [undefined]. *)
Definition autodetectTemplateType (model : string) : option TemplateType :=
  let lower := toLowerCase model in
  if includes lower "codellama" && includes lower "70b" then Some codellama_70b
  else if includes lower "gpt" || includes lower "chat-bison" ||
          includes lower "pplx" || includes lower "gemini" then None
  else if includes lower "llava" then Some llava
  else if includes lower "xwin" then Some xwin_coder
  else if includes lower "dolphin" then Some chatml
  else if includes lower "phi2" then Some phi2
  else if includes lower "phind" then Some phind
  else if includes lower "llama" then Some llama2
  else if includes lower "zephyr" then Some zephyr
  else if includes lower "claude" then Some anthropic
  else if includes lower "alpaca" || includes lower "wizard" then Some alpaca
  else if includes lower "mistral" then Some llama2
  else if includes lower "deepseek" then Some deepseek
  else if includes lower "ninja" || includes lower "openchat" then Some openchat
  else if includes lower "neural-chat" then Some neural_chat
  else Some chatml.

(** [explicitTemplate || autodetectTemplateType(model)]: every
    [TemplateType] is a non-empty string, hence truthy. *)
Definition resolveTemplateType (model : string) (explicitTemplate : option TemplateType)
  : option TemplateType :=
  match explicitTemplate with
  | Some t => Some t
  | None => autodetectTemplateType model
  end.

(** ** PromptTemplateEngine *)

(** The edit prompts imported from [./templates/edit], by name. *)
Inductive EditPrompt : Set :=
| alpacaEditPrompt | codeLlama70bEditPrompt | codellamaEditPrompt
| deepseekEditPrompt | mistralEditPrompt | neuralChatEditPrompt
| openchatEditPrompt | phindEditPrompt | simplestEditPrompt
| simplifiedEditPrompt | xWinCoderEditPrompt | zephyrEditPrompt.

(** [autodetectPromptTemplates(model, explicitTemplate)].  The local
    [editTemplate] starts as [null] ([None]); the result is the object
    [templates]. *)
Definition autodetectPromptTemplates (model : string)
    (explicitTemplate : option TemplateType) : gmap string EditPrompt :=
  let templateType := resolveTemplateType model explicitTemplate in
  let templates : gmap string EditPrompt := ∅ in
  let editTemplate : option EditPrompt :=
    match templateType with
    | Some phind => Some phindEditPrompt
    | Some phi2 => Some simplifiedEditPrompt
    | Some zephyr => Some zephyrEditPrompt
    | Some llama2 =>
        if includes model "mistral" then Some mistralEditPrompt
        else Some codellamaEditPrompt
    | Some alpaca => Some alpacaEditPrompt
    | Some deepseek => Some deepseekEditPrompt
    | Some openchat => Some openchatEditPrompt
    | Some xwin_coder => Some xWinCoderEditPrompt
    | Some neural_chat => Some neuralChatEditPrompt
    | Some codellama_70b => Some codeLlama70bEditPrompt
    | Some _ => Some simplestEditPrompt
    | None => None
    end in
  match editTemplate with
  | Some e => <["edit" := e]> templates
  | None => templates
  end.

(** The chat templates imported from [./templates/chat], by name. *)
Inductive ChatTemplate : Set :=
| anthropicTemplateMessages | chatmlTemplateMessages | codeLlama70bTemplateMessages
| deepseekTemplateMessages | llama2TemplateMessages | llavaTemplateMessages
| neuralChatTemplateMessages | openchatTemplateMessages | phi2TemplateMessages
| phindTemplateMessages | templateAlpacaMessages | xWinCoderTemplateMessages
| zephyrTemplateMessages.

(** [autodetectTemplateFunction(model, provider, explicitTemplate)];
    [None] is [null]. *)
Definition autodetectTemplateFunction (model : string) (provider : ModelProvider)
    (explicitTemplate : option TemplateType) : option ChatTemplate :=
  if bool_decide (explicitTemplate = None) &&
     array_includes PROVIDER_HANDLES_TEMPLATING provider
  then None
  else
    match resolveTemplateType model explicitTemplate with
    | Some templateType =>
        match templateType with
        | llama2 => Some llama2TemplateMessages
        | alpaca => Some templateAlpacaMessages
        | phi2 => Some phi2TemplateMessages
        | phind => Some phindTemplateMessages
        | zephyr => Some zephyrTemplateMessages
        | anthropic => Some anthropicTemplateMessages
        | chatml => Some chatmlTemplateMessages
        | deepseek => Some deepseekTemplateMessages
        | openchat => Some openchatTemplateMessages
        | xwin_coder => Some xWinCoderTemplateMessages
        | neural_chat => Some neuralChatTemplateMessages
        | llava => Some llavaTemplateMessages
        | codellama_70b => Some codeLlama70bTemplateMessages
        | none => None
        end
    | None => None
    end.

(** ** JavaScript values and objects *)

(** The values an options object holds.  [JOther str] is a value of any
    other kind (a non-integral number, an array, a nested object), carried
    with its string conversion; such a value is truthy. *)
Inductive jsval : Type :=
| JUndefined
| JNull
| JBool (b : bool)
| JNum (n : Z)
| JStr (s : string)
| JOther (str : string).

#[global] Instance jsval_eq_dec : EqDecision jsval.
Proof. solve_decision. Defined.

(** [if (v)] *)
Definition truthy (v : jsval) : bool :=
  match v with
  | JUndefined | JNull => false
  | JBool b => b
  | JNum n => negb (n =? 0)%Z
  | JStr s => negb (String.eqb s "")
  | JOther _ => true
  end.

(** [a ?? b] *)
Definition nullish_or (a b : jsval) : jsval :=
  match a with
  | JUndefined | JNull => b
  | _ => a
  end.

(** [a || b] *)
Definition js_or (a b : jsval) : jsval := if truthy a then a else b.

(** [`${v}`] *)
Definition js_toString (v : jsval) : string :=
  match v with
  | JUndefined => "undefined"
  | JNull => "null"
  | JBool true => "true"
  | JBool false => "false"
  | JNum n => pretty n
  | JStr s => s
  | JOther str => str
  end.

(** [v !== s] for a string [s] *)
Definition strict_ne_string (v : jsval) (s : string) : bool :=
  match v with
  | JStr s' => negb (String.eqb s' s)
  | _ => true
  end.

(** A plain object: its own properties in insertion order, which
    [Object.entries] enumerates. *)
Definition JsObject : Type := list (string * jsval).

Module Obj.

(** [o[k]], [undefined] when [k] is not a property of [o]. *)
Fixpoint get (o : JsObject) (k : string) : jsval :=
  match o with
  | [] => JUndefined
  | (k', v) :: o' => if String.eqb k' k then v else get o' k
  end.

(** [k in o] *)
Definition has (o : JsObject) (k : string) : bool :=
  existsb (λ kv, String.eqb (fst kv) k) o.

(** [delete o[k]] *)
Definition delete (k : string) (o : JsObject) : JsObject :=
  List.filter (λ kv, negb (String.eqb (fst kv) k)) o.

(** [o[k] = v]: a present key keeps its place, a new one goes last. *)
Fixpoint set (o : JsObject) (k : string) (v : jsval) : JsObject :=
  match o with
  | [] => [(k, v)]
  | (k', v') :: o' => if String.eqb k' k then (k, v) :: o' else (k', v') :: set o' k v
  end.

(** [{ ...o, ...src }] *)
Definition spread (o src : JsObject) : JsObject :=
  fold_left (λ acc kv, set acc (fst kv) (snd kv)) src o.

End Obj.

(** ** Messages *)

Inductive ChatMessageRole : Set := system | user | assistant.

Definition role_toString (r : ChatMessageRole) : string :=
  match r with
  | system => "system"
  | user => "user"
  | assistant => "assistant"
  end.

(** [MessagePart]: [{type: "text", text}] or [{type: "imageUrl", imageUrl: {url}}]. *)
Inductive MessagePart : Type :=
| TextPart (text : string)
| ImageUrlPart (url : string).

(** [MessageContent = string | MessagePart[]] *)
Inductive MessageContent : Type :=
| Text (s : string)
| Parts (ps : list MessagePart).

Record ChatMessage : Type := MkChatMessage {
  role : ChatMessageRole;
  content : MessageContent
}.

(** String conversion of a message content, as [+=] and a template
    literal perform it: an array joins the conversions of its elements
    with a comma, and a part, being a plain object, converts to
    [[object Object]]. *)
Fixpoint join_comma (l : list string) : string :=
  match l with
  | [] => ""
  | [x] => x
  | x :: l' => x ++ "," ++ join_comma l'
  end.

Definition content_toString (c : MessageContent) : string :=
  match c with
  | Text s => s
  | Parts ps => join_comma (map (λ _, "[object Object]") ps)
  end.

(** [c || ""] inside a template literal: only the empty string is falsy. *)
Definition content_or_empty (c : MessageContent) : string := content_toString c.

(** [LLMReturnValue]; a field the host left out is [None]. *)
Module LLMReturnValue.
Record t : Type := Mk {
  prompt : option string;
  completion : option string
}.
End LLMReturnValue.
Abbreviation LLMReturnValue := LLMReturnValue.t.

(** ** Generators as traces *)

(** [new Error(message)] *)
Inductive Error : Type := MkError (message : string).

(** How a call or a generator ends. *)
Inductive Completion (A : Type) : Type :=
| Returned (a : A)
| Thrown (e : Error).
Arguments Returned {A} a.
Arguments Thrown {A} e.

(** A generator owned by a collaborator (a provider transport, the host):
    the finite sequence it yields and how it ends. *)
Record Stream (X R : Type) : Type := MkStream {
  chunks : list X;
  ending : Completion R
}.
Arguments MkStream {X R} chunks ending.
Arguments chunks {X R} s.
Arguments ending {X R} s.

(** What a call of this class does that its caller can observe. *)
Inductive Event (Y : Type) : Type :=
| EYield (y : Y)
| EWriteLog (s : string)
| ERequestHook (model : jsval) (prompt : string)
| EConsoleLog (e : Error).
Arguments EYield {Y} y.
Arguments EWriteLog {Y} s.
Arguments ERequestHook {Y} model prompt.
Arguments EConsoleLog {Y} e.

(** The fragments a trace yields, in order. *)
Fixpoint yields {Y} (t : list (Event Y)) : list Y :=
  match t with
  | [] => []
  | EYield y :: t' => y :: yields t'
  | _ :: t' => yields t'
  end.

(** The trace a consumer of the generator leaves: the yields are taken by
    the consumer, the other events stay. *)
Fixpoint consumed {X Y} (t : list (Event X)) : list (Event Y) :=
  match t with
  | [] => []
  | EYield _ :: t' => consumed t'
  | EWriteLog s :: t' => EWriteLog s :: consumed t'
  | ERequestHook m p :: t' => ERequestHook m p :: consumed t'
  | EConsoleLog e :: t' => EConsoleLog e :: consumed t'
  end.

(** A method body that yields [Y] and returns [A].  The state it threads
    is the caller's [options] object, which the method holds by reference. *)
Definition Gen (Y A : Type) : Type :=
  JsObject → JsObject * (list (Event Y) * Completion A).

Definition ret {Y A} (a : A) : Gen Y A := λ o, (o, ([], Returned a)).

Definition throw {Y A} (e : Error) : Gen Y A := λ o, (o, ([], Thrown e)).

Definition bind {Y A B} (m : Gen Y A) (k : A → Gen Y B) : Gen Y B :=
  λ o,
    match m o with
    | (o1, (t1, Returned a)) =>
        match k a o1 with
        | (o2, (t2, r)) => (o2, ((t1 ++ t2)%list, r))
        end
    | (o1, (t1, Thrown e)) => (o1, (t1, Thrown e))
    end.

Declare Scope gen_scope.
Delimit Scope gen_scope with gen.
Notation "'let*' x ':=' m 'in' k" := (bind m (λ x, k))
  (at level 10, x pattern, m at level 100, k at level 200) : gen_scope.
Notation "m ';;' k" := (bind m (λ _, k))
  (at level 100, k at level 200, right associativity) : gen_scope.
Local Open Scope gen_scope.

Definition emit {Y} (e : Event Y) : Gen Y unit := λ o, (o, ([e], Returned tt)).

(** [yield y] *)
Definition yield {Y} (y : Y) : Gen Y unit := emit (EYield y).

(** Reading and updating the object behind [options]. *)
Definition read_options {Y} : Gen Y JsObject := λ o, (o, ([], Returned o)).
Definition update_options {Y} (f : JsObject → JsObject) : Gen Y unit :=
  λ o, (f o, ([], Returned tt)).

(** [await c] for a collaborator's call that returns or throws. *)
Definition await {Y A} (c : Completion A) : Gen Y A :=
  match c with
  | Returned a => ret a
  | Thrown e => throw e
  end.

(** [if (c) { m }] *)
Definition when {Y} (c : bool) (m : Gen Y unit) : Gen Y unit :=
  if c then m else ret tt.

(** [try { m } catch (error) { h error }] *)
Definition try_catch {Y A} (m : Gen Y A) (h : Error → Gen Y A) : Gen Y A :=
  λ o,
    match m o with
    | (o1, (t1, Thrown e)) =>
        match h e o1 with
        | (o2, (t2, r)) => (o2, ((t1 ++ t2)%list, r))
        end
    | done => done
    end.

(** The body of a loop, run on each element in turn with the variables
    the loop updates as [s]. *)
Fixpoint for_each {X Y S} (body : S → X → Gen Y S) (xs : list X) (s : S) : Gen Y S :=
  match xs with
  | [] => ret s
  | x :: xs' => let* s' := body s x in for_each body xs' s'
  end.

(** [for await (const x of g) { body }] over a collaborator's generator:
    the loop ends with the generator, and throws what it throws. *)
Definition for_await {X R Y S} (g : Stream X R) (s : S) (body : S → X → Gen Y S)
  : Gen Y (S * R) :=
  let* s' := for_each body (chunks g) s in
  let* r := await (ending g) in
  ret (s', r).

(** [for await (const x of g) { s = step s x }] over a generator of this
    class, by a consumer whose loop body only updates its variables. *)
Definition for_await_gen {X R Y S} (g : Gen X R) (s : S) (step : S → X → S) : Gen Y S :=
  λ o,
    match g o with
    | (o1, (t, Returned _)) => (o1, (consumed t, Returned (fold_left step (yields t) s)))
    | (o1, (t, Thrown e)) => (o1, (consumed t, Thrown e))
    end.

(** A computation that leaves the object behind [options] as it found it. *)
Definition keeps_options {Y A} (m : Gen Y A) : Prop := ∀ o, (m o).1 = o.

(** The fragments and the way the computation ends, started on [o]. *)
Definition trace_of {Y A} (m : Gen Y A) (o : JsObject) : list (Event Y) := (m o).2.1.
Definition outcome_of {Y A} (m : Gen Y A) (o : JsObject) : Completion A := (m o).2.2.
Definition options_after {Y A} (m : Gen Y A) (o : JsObject) : JsObject := (m o).1.

(** ** What the module imports *)

(** The functions and constants [index.ts] imports from [./constants],
    [./countTokens] and [../util/merge].  They are pure; each is taken as
    it is called here. *)
Class Imports : Type := {
  (** [mergeJson(first, second)] *)
  mergeJson : JsObject → JsObject → JsObject;
  (** [countTokens(text, model)] *)
  countTokens : string → string → Z;
  (** [pruneRawPromptFromTop(modelName, contextLength, prompt, tokensForCompletion)] *)
  pruneRawPromptFromTop : jsval → Z → string → jsval → string;
  (** [compileChatMessages(modelName, msgs, contextLength, maxTokens,
      supportsImages, prompt, functions, systemMessage)] *)
  compileChatMessages :
    jsval → list ChatMessage → Z → jsval → bool → option string →
    option (list jsval) → option string → list ChatMessage;
  CONTEXT_LENGTH_FOR_MODEL : gmap string Z;
  DEFAULT_CONTEXT_LENGTH : Z;
  DEFAULT_MAX_TOKENS : Z
}.

(** A request to the host over [../ide/messaging], by message type. *)
Inductive IdeRequest : Type :=
| llmStreamComplete (prompt : string) (title : option string) (completionOptions : JsObject)
| llmComplete (prompt : string) (title : option string) (completionOptions : JsObject)
| llmStreamChat (messages : list ChatMessage) (title : option string)
    (completionOptions : JsObject).

(** The execution context: the global [window] ([None] when
    [typeof window === "undefined"], else the value of [window?.ide]) and
    the host behind [ideRequest] and [ideStreamRequest]. *)
Class Host : Type := {
  window : option jsval;
  (** [(await ideRequest(type, data)).content] *)
  ideRequest : IdeRequest → Completion string;
  (** [ideStreamRequest(type, data)]: yields text, returns the host's
      final value ([None] for [undefined]). *)
  ideStreamRequest : IdeRequest → Stream string (option LLMReturnValue)
}.

(** ** BaseLLM *)

(** An instance of a concrete subclass of [BaseLLM]: the fields the
    methods below read and the protected methods the subclass overrides
    ([None] where it inherits the method of [BaseLLM]).  [writeLog] and
    [llmRequestHook] are the caller's callbacks; each returns normally
    ([None]) or throws. *)
Record BaseLLM : Type := MkBaseLLM {
  providerName : ModelProvider;
  model : string;
  title : option string;
  systemMessage : option string;
  contextLength : Z;
  completionOptions : JsObject;
  templateMessages : option (list ChatMessage → string);
  writeLog : option (string → option Error);
  llmRequestHook : option (jsval → string → option Error);
  override_streamComplete : option (string → JsObject → Stream string unit);
  override_streamChat : option (list ChatMessage → JsObject → Stream ChatMessage unit);
  override_complete : option (string → JsObject → Completion string)
}.

Section Pipeline.
Context `{Imports} `{Host}.

Definition supportsImages (this : BaseLLM) : bool :=
  modelSupportsImages (providerName this) (model this).

(** [BaseLLM.countTokens(text)] *)
Definition BaseLLM_countTokens (this : BaseLLM) (text : string) : Z :=
  countTokens text (model this).

(** [x || DEFAULT] on an optional number: [undefined] and [0] are falsy. *)
Definition number_or (x : option Z) (d : Z) : Z :=
  match x with
  | Some n => if (n =? 0)%Z then d else n
  | None => d
  end.

Definition _compileChatMessages (this : BaseLLM) (options : JsObject)
    (messages : list ChatMessage) (functions : option (list jsval)) : list ChatMessage :=
  let contextLength0 := contextLength this in
  let contextLength1 :=
    if strict_ne_string (Obj.get options "model") (model this) &&
       bool_decide (is_Some (CONTEXT_LENGTH_FOR_MODEL !! js_toString (Obj.get options "model")))
    then number_or (CONTEXT_LENGTH_FOR_MODEL !! js_toString (Obj.get options "model"))
           DEFAULT_CONTEXT_LENGTH
    else contextLength0 in
  compileChatMessages
    (Obj.get options "model")
    messages
    contextLength1
    (js_or (Obj.get options "maxTokens") (JNum DEFAULT_MAX_TOKENS))
    (supportsImages this)
    None
    functions
    (systemMessage this).

Definition _getSystemMessage (this : BaseLLM) : option string := systemMessage this.

(** [if (s)] on an optional string *)
Definition string_truthy (s : option string) : bool :=
  match s with
  | Some s' => negb (String.eqb s' "")
  | None => false
  end.

Definition _templatePromptLikeMessages (this : BaseLLM) (prompt : string) : string :=
  match templateMessages this with
  | None => prompt
  | Some templateMessages =>
      let msgs := [MkChatMessage user (Text prompt)] in
      let msgs :=
        match _getSystemMessage this with
        | Some systemMessage =>
            if string_truthy (Some systemMessage)
            then MkChatMessage system (Text systemMessage) :: msgs
            else msgs
        | None => msgs
        end in
      templateMessages msgs
  end.

(** [arr.join("\n")] *)
Fixpoint join_lines (l : list string) : string :=
  match l with
  | [] => ""
  | [x] => x
  | x :: l' => x ++ String "010" (join_lines l')
  end.

Definition _compileLogMessage (this : BaseLLM) (prompt : string)
    (completionOptions : JsObject) : string :=
  let dict := Obj.spread [("contextLength", JNum (contextLength this))] completionOptions in
  let settings :=
    join_lines (map (λ kv, fst kv ++ ": " ++ js_toString (snd kv)) dict) in
  "Settings:" ++ String "010" settings ++ String "010" (String "010"
    ("############################################" ++ String "010" (String "010" prompt))).

(** The count is computed and dropped. *)
Definition _logTokensGenerated (this : BaseLLM) (model : jsval) (completion : string) : unit :=
  let tokens := BaseLLM_countTokens this completion in tt.

(** Calling the two callbacks: the call is observed, then it returns or
    throws. *)
Definition call_writeLog {Y} (f : string → option Error) (s : string) : Gen Y unit :=
  emit (EWriteLog s) ;;
  match f s with
  | None => ret tt
  | Some e => throw e
  end.

Definition call_llmRequestHook {Y} (f : jsval → string → option Error)
    (model : jsval) (prompt : string) : Gen Y unit :=
  emit (ERequestHook model prompt) ;;
  match f model prompt with
  | None => ret tt
  | Some e => throw e
  end.

(** [console.log(error)] *)
Definition console_log {Y} (e : Error) : Gen Y unit := emit (EConsoleLog e).

(** Deletes [log] and [raw] from the caller's object, then merges it over
    the instance's completion options. *)
Definition _parseCompletionOptions {Y} (this : BaseLLM) : Gen Y (JsObject * jsval * jsval) :=
  let* options := read_options in
  let log := nullish_or (Obj.get options "log") (JBool true) in
  let raw := nullish_or (Obj.get options "raw") (JBool false) in
  update_options (Obj.delete "log") ;;
  update_options (Obj.delete "raw") ;;
  let* options := read_options in
  let completionOptions := mergeJson (completionOptions this) options in
  ret (completionOptions, log, raw).

Definition _formatChatMessages (messages : list ChatMessage) : string :=
  fold_left
    (λ formatted msg,
       formatted ++ "<" ++ role_toString (role msg) ++ ">" ++ String "010"
         (content_or_empty (content msg) ++ String "010" (String "010" "")))
    messages "".

Definition _shouldRequestDirectly : bool :=
  match window with
  | None => true
  | Some ide => strict_ne_string ide "vscode"
  end.

(** [BaseLLM._streamComplete]: throws on the first [next()]. *)
Definition BaseLLM_streamComplete (this : BaseLLM) (prompt : string) (options : JsObject)
  : Stream string unit :=
  MkStream [] (Thrown (MkError "Not implemented")).

(** [this._streamComplete(prompt, options)] *)
Definition _streamComplete (this : BaseLLM) (prompt : string) (options : JsObject)
  : Stream string unit :=
  match override_streamComplete this with
  | Some f => f prompt options
  | None => BaseLLM_streamComplete this prompt options
  end.

(** [BaseLLM._streamChat] *)
Definition BaseLLM_streamChat (this : BaseLLM) (messages : list ChatMessage)
    (options : JsObject) : Stream ChatMessage unit :=
  match templateMessages this with
  | None =>
      MkStream [] (Thrown (MkError "You must either implement templateMessages or _streamChat"))
  | Some templateMessages =>
      let g := _streamComplete this (templateMessages messages) options in
      MkStream (map (λ chunk, MkChatMessage assistant (Text chunk)) (chunks g)) (ending g)
  end.

(** [this._streamChat(messages, options)] *)
Definition _streamChat (this : BaseLLM) (messages : list ChatMessage) (options : JsObject)
  : Stream ChatMessage unit :=
  match override_streamChat this with
  | Some f => f messages options
  | None => BaseLLM_streamChat this messages options
  end.

(** [BaseLLM._complete] *)
Definition BaseLLM_complete (this : BaseLLM) (prompt : string) (options : JsObject)
  : Completion string :=
  let g := _streamComplete this prompt options in
  match ending g with
  | Returned _ => Returned (fold_left (λ completion chunk, completion ++ chunk) (chunks g) "")
  | Thrown e => Thrown e
  end.

(** [this._complete(prompt, options)] *)
Definition _complete (this : BaseLLM) (prompt : string) (options : JsObject)
  : Completion string :=
  match override_complete this with
  | Some f => f prompt options
  | None => BaseLLM_complete this prompt options
  end.

(** The block [if (log) { ... }] that [complete], [streamComplete] and
    [streamChat] each run before the request is sent. *)
Definition log_request {Y} (this : BaseLLM) (log : jsval) (prompt : string)
    (completionOptions : JsObject) : Gen Y unit :=
  when (truthy log)
    (match writeLog this with
     | Some f => call_writeLog f (_compileLogMessage this prompt completionOptions)
     | None => ret tt
     end ;;
     match llmRequestHook this with
     | Some f => call_llmRequestHook f (Obj.get completionOptions "model") prompt
     | None => ret tt
     end).

(** [if (log && this.writeLog) await this.writeLog(`Completion:\n\n${completion}\n\n`)] *)
Definition log_completion {Y} (this : BaseLLM) (log : jsval) (completion : string)
  : Gen Y unit :=
  match writeLog this with
  | Some f =>
      when (truthy log)
        (call_writeLog f
           ("Completion:" ++ String "010" (String "010"
              (completion ++ String "010" (String "010" "")))))
  | None => ret tt
  end.

Definition streamComplete (this : BaseLLM) (prompt : string) : Gen string LLMReturnValue :=
  if negb _shouldRequestDirectly then
    let* options := read_options in
    let gen := ideStreamRequest (llmStreamComplete prompt (title this) options) in
    let* (_, next) := for_await gen tt (λ _ value, yield value) in
    ret (LLMReturnValue.Mk (next ≫= LLMReturnValue.prompt) (next ≫= LLMReturnValue.completion))
  else
    let* (completionOptions, log, raw) := _parseCompletionOptions this in
    let prompt :=
      pruneRawPromptFromTop
        (Obj.get completionOptions "model")
        (contextLength this)
        prompt
        (js_or (Obj.get completionOptions "maxTokens") (JNum DEFAULT_MAX_TOKENS)) in
    let prompt :=
      if negb (truthy raw) then _templatePromptLikeMessages this prompt else prompt in
    log_request this log prompt completionOptions ;;
    let* (completion, _) :=
      for_await (_streamComplete this prompt completionOptions) ""
        (λ completion chunk,
           let completion := completion ++ chunk in
           yield chunk ;; ret completion) in
    let _ := _logTokensGenerated this (Obj.get completionOptions "model") completion in
    log_completion this log completion ;;
    ret (LLMReturnValue.Mk (Some prompt) (Some completion)).

Definition complete (this : BaseLLM) (prompt : string) : Gen Empty_set string :=
  if negb _shouldRequestDirectly then
    let* options := read_options in
    await (ideRequest (llmComplete prompt (title this) options))
  else
    let* (completionOptions, log, raw) := _parseCompletionOptions this in
    let prompt :=
      pruneRawPromptFromTop
        (Obj.get completionOptions "model")
        (contextLength this)
        prompt
        (js_or (Obj.get completionOptions "maxTokens") (JNum DEFAULT_MAX_TOKENS)) in
    let prompt :=
      if negb (truthy raw) then _templatePromptLikeMessages this prompt else prompt in
    log_request this log prompt completionOptions ;;
    let* completion := await (_complete this prompt completionOptions) in
    let _ := _logTokensGenerated this (Obj.get completionOptions "model") completion in
    log_completion this log completion ;;
    ret completion.

Definition streamChat (this : BaseLLM) (messages : list ChatMessage)
  : Gen ChatMessage LLMReturnValue :=
  if negb _shouldRequestDirectly then
    let* options := read_options in
    let gen := ideStreamRequest (llmStreamChat messages (title this) options) in
    let* (_, next) :=
      for_await gen tt (λ _ value, yield (MkChatMessage user (Text value))) in
    ret (LLMReturnValue.Mk (next ≫= LLMReturnValue.prompt) (next ≫= LLMReturnValue.completion))
  else
    let* (completionOptions, log, raw) := _parseCompletionOptions this in
    let messages := _compileChatMessages this completionOptions messages None in
    let prompt :=
      match templateMessages this with
      | Some templateMessages => templateMessages messages
      | None => _formatChatMessages messages
      end in
    log_request this log prompt completionOptions ;;
    let* completion :=
      try_catch
        (match templateMessages this with
         | Some _ =>
             let* (completion, _) :=
               for_await (_streamComplete this prompt completionOptions) ""
                 (λ completion chunk,
                    let completion := completion ++ chunk in
                    yield (MkChatMessage assistant (Text chunk)) ;; ret completion) in
             ret completion
         | None =>
             let* (completion, _) :=
               for_await (_streamChat this messages completionOptions) ""
                 (λ completion chunk,
                    let completion := completion ++ content_toString (content chunk) in
                    yield chunk ;; ret completion) in
             ret completion
         end)
        (λ error, console_log error ;; throw error) in
    let _ := _logTokensGenerated this (Obj.get completionOptions "model") completion in
    log_completion this log completion ;;
    ret (LLMReturnValue.Mk (Some prompt) (Some completion)).

Definition chat (this : BaseLLM) (messages : list ChatMessage) : Gen Empty_set ChatMessage :=
  let* completion :=
    for_await_gen (streamChat this messages) ""
      (λ completion chunk, completion ++ content_toString (content chunk)) in
  ret (MkChatMessage assistant (Text completion)).

(** What a direct call derives from the caller's object [options]: the two
    flags, the merged completion options, and the prompt handed to the
    completion transport. *)
Definition log_flag (options : JsObject) : jsval :=
  nullish_or (Obj.get options "log") (JBool true).

Definition raw_flag (options : JsObject) : jsval :=
  nullish_or (Obj.get options "raw") (JBool false).

Definition effective_options (this : BaseLLM) (options : JsObject) : JsObject :=
  mergeJson (completionOptions this) (Obj.delete "raw" (Obj.delete "log" options)).

Definition rendered_prompt (this : BaseLLM) (options : JsObject) (prompt : string) : string :=
  let completionOptions := effective_options this options in
  let pruned :=
    pruneRawPromptFromTop
      (Obj.get completionOptions "model")
      (contextLength this)
      prompt
      (js_or (Obj.get completionOptions "maxTokens") (JNum DEFAULT_MAX_TOKENS)) in
  if negb (truthy (raw_flag options)) then _templatePromptLikeMessages this pruned
  else pruned.

(** The caller's callbacks, where configured, return normally. *)
Definition callbacks_return (this : BaseLLM) : Prop :=
  (∀ f s, writeLog this = Some f → f s = None) ∧
  (∀ f m p, llmRequestHook this = Some f → f m p = None).

End Pipeline.

(** ** Instances used to run the model *)

(** Stand-ins for the imported functions: a shallow merge, a count of
    characters, no pruning. *)
Definition test_imports : Imports := {|
  mergeJson := Obj.spread;
  countTokens := λ text _, Z.of_nat (String.length text);
  pruneRawPromptFromTop := λ _ _ prompt _, prompt;
  compileChatMessages := λ _ msgs _ _ _ _ _ _, msgs;
  CONTEXT_LENGTH_FOR_MODEL := ∅;
  DEFAULT_CONTEXT_LENGTH := 4096;
  DEFAULT_MAX_TOKENS := 1024
|}.

(** A headless process: no [window]. *)
Definition headless_host : Host := {|
  window := None;
  ideRequest := λ _, Thrown (MkError "no host");
  ideStreamRequest := λ _, MkStream [] (Thrown (MkError "no host"))
|}.

(** The VS Code webview: requests go through the host, which streams two
    fragments. *)
Definition vscode_host : Host := {|
  window := Some (JStr "vscode");
  ideRequest := λ _, Returned "hello";
  ideStreamRequest := λ _,
    MkStream ["hel"; "lo"] (Returned (Some (LLMReturnValue.Mk (Some "hi") (Some "hello"))))
|}.

(** A provider whose completion transport emits [a], [b], [c]. *)
Definition abc_llm : BaseLLM := {|
  providerName := "openai";
  model := "gpt-4";
  title := Some "abc";
  systemMessage := None;
  contextLength := 4096;
  completionOptions := [("model", JStr "gpt-4"); ("maxTokens", JNum 1024)];
  templateMessages := None;
  writeLog := Some (λ _, None);
  llmRequestHook := None;
  override_streamComplete := Some (λ _ _, MkStream ["a"; "b"; "c"] (Returned tt));
  override_streamChat :=
    Some (λ _ _,
      MkStream [MkChatMessage assistant (Text "x"); MkChatMessage assistant (Text "y")]
        (Returned tt));
  override_complete := None
|}.

(** A subclass that overrides no transport and has no chat template. *)
Definition bare_llm : BaseLLM := {|
  providerName := "openai";
  model := "gpt-4";
  title := None;
  systemMessage := None;
  contextLength := 4096;
  completionOptions := [("model", JStr "gpt-4")];
  templateMessages := None;
  writeLog := None;
  llmRequestHook := None;
  override_streamComplete := None;
  override_streamChat := None;
  override_complete := None
|}.

(** A caller's options object. *)
Definition caller_options : JsObject :=
  [("log", JBool false); ("temperature", JOther "0.5"); ("raw", JBool true);
   ("maxTokens", JNum 256)].

(** ** Statements shared by the results below *)

(** The markers [autodetectTemplateType] tests one at a time. *)
Definition single_markers : list string :=
  ["gpt"; "chat-bison"; "pplx"; "gemini"; "llava"; "xwin"; "dolphin"; "phi2";
   "phind"; "llama"; "zephyr"; "claude"; "alpaca"; "wizard"; "mistral";
   "deepseek"; "ninja"; "openchat"; "neural-chat"].

(** No rule of the cascade applies to the lower-cased name. *)
Definition no_rule_matches (lower : string) : Prop :=
  includes lower "codellama" && includes lower "70b" = false ∧
  Forall (λ marker, includes lower marker = false) single_markers.

(** What deleting [log] and [raw] from [options] leaves in [options']:
    neither key, and every other key as it was. *)
Definition log_raw_deleted (options options' : JsObject) : Prop :=
  Obj.has options' "log" = false ∧
  Obj.has options' "raw" = false ∧
  ∀ k, k ≠ "log" → k ≠ "raw" →
    Obj.has options' k = Obj.has options k ∧ Obj.get options' k = Obj.get options k.

(** * The rest of the code

    The parts of the sources that the results above do not reach: the
    constructor of [BaseLLM] and [collectArgs] in [core/llm/index.ts], the
    pure functions [findLastIndex] and [resolveParagraph] of
    [gui/src/components/mainInput/resolveInput.ts], and [getContextItems] of
    [core/context/providers/ProblemsContextProvider.ts]. *)

(** ** More JavaScript primitives *)

(** [s.endsWith(t)] *)
Fixpoint endsWith (s t : string) : bool :=
  String.eqb s t ||
  match s with
  | EmptyString => false
  | String _ s' => endsWith s' t
  end.

(** [s.slice(0, -1)] *)
Fixpoint slice_0_minus1 (s : string) : string :=
  match s with
  | EmptyString => EmptyString
  | String c EmptyString => EmptyString
  | String c s' => String c (slice_0_minus1 s')
  end.

(** [a || b] on optional values that are truthy when present (objects,
    functions, non-empty union members). *)
Definition or_else {A} (a b : option A) : option A :=
  match a with
  | Some x => Some x
  | None => b
  end.

(** [s || d] on an optional string: [undefined] and the empty string are
    falsy. *)
Definition string_or (s : option string) (d : string) : string :=
  match s with
  | Some s' => if String.eqb s' "" then d else s'
  | None => d
  end.

(** ** The constructor of [BaseLLM] *)

(** [LLMOptions], with the fields the constructor reads.  An optional
    field that is not given is [None]. *)
Module LLMOptions.
Record t : Type := Mk {
  title : option string;
  uniqueId : option string;
  model : string;
  systemMessage : option string;
  contextLength : option Z;
  completionOptions : option JsObject;
  requestOptions : option JsObject;
  template : option TemplateType;
  promptTemplates : option (gmap string string);
  templateMessages : option (list ChatMessage → string);
  writeLog : option (string → option Error);
  llmRequestHook : option (jsval → string → option Error);
  apiKey : option string;
  apiBase : option string;
  engine : option string;
  apiVersion : option string;
  apiType : option string;
  region : option string;
  projectId : option string
}.
End LLMOptions.

(** A concrete subclass: its static members and the protected methods it
    overrides.  [defaultOptions] is a [Partial<LLMOptions>]; its [model],
    if any, is always overridden by the caller's. *)
Record ProviderClass : Type := MkProviderClass {
  static_providerName : ModelProvider;
  static_defaultOptions : option LLMOptions.t;
  class_streamComplete : option (string → JsObject → Stream string unit);
  class_streamChat : option (list ChatMessage → JsObject → Stream ChatMessage unit);
  class_complete : option (string → JsObject → Completion string)
}.

(** A value of [promptTemplates]: a template this file selects, or a
    string of the caller's. *)
Inductive PromptTemplateValue : Type :=
| BuiltinTemplate (e : EditPrompt)
| CallerTemplate (s : string).

(** The object the constructor builds: the fields the pipeline reads,
    gathered in [llm], and the others. *)
Record LLMInstance : Type := MkLLMInstance {
  llm : BaseLLM;
  _llmOptions : LLMOptions.t;
  uniqueId : string;
  requestOptions : option JsObject;
  promptTemplates : gmap string PromptTemplateValue;
  apiKey : option string;
  apiBase : option string;
  engine : option string;
  apiVersion : option string;
  apiType : option string;
  region : option string;
  projectId : option string
}.

(** What the constructor and [collectArgs] import besides [Imports]:
    [DEFAULT_ARGS] of [./constants], the table of [./templates/options],
    and the functions of [./templates/chat] behind their names. *)
Class MoreImports : Type := {
  DEFAULT_ARGS : JsObject;
  CompletionOptionsForModels : gmap string JsObject;
  chatTemplateFunction : ChatTemplate → list ChatMessage → string
}.

Section Constructor.
Context `{Imports} `{MoreImports}.

(** One field of [{ ...defaultOptions, ...options }]. *)
Definition spread_field {A} (field : LLMOptions.t → option A)
    (defaultOptions : option LLMOptions.t) (options : LLMOptions.t) : option A :=
  or_else (field options) (defaultOptions ≫= field).

(** [if (apiBase?.endsWith("/")) apiBase = apiBase.slice(0, -1)] *)
Definition strip_trailing_slash (apiBase : option string) : option string :=
  match apiBase with
  | Some base => if endsWith base "/" then Some (slice_0_minus1 base) else Some base
  | None => None
  end.

(** [new Provider(options)] *)
Definition new_BaseLLM (cls : ProviderClass) (options0 : LLMOptions.t) : LLMInstance :=
  let providerName := static_providerName cls in
  let defaults := static_defaultOptions cls in
  (* options = { title: providerName, ...defaultOptions, ...options } *)
  let title := or_else (spread_field LLMOptions.title defaults options0) (Some providerName) in
  let model := LLMOptions.model options0 in
  let template := spread_field LLMOptions.template defaults options0 in
  let completionOptions0 :=
    match spread_field LLMOptions.completionOptions defaults options0 with
    | Some co => co
    | None => []
    end in
  let templateType := resolveTemplateType model template in
  let completionOptions1 :=
    Obj.set
      (Obj.set (Obj.spread [] completionOptions0) "model" (JStr (string_or (Some model) "gpt-4")))
      "maxTokens" (js_or (Obj.get completionOptions0 "maxTokens") (JNum DEFAULT_MAX_TOKENS)) in
  let completionOptions2 :=
    match CompletionOptionsForModels !! model with
    | Some forModel => mergeJson completionOptions1 forModel
    | None => completionOptions1
    end in
  let promptTemplates :=
    match spread_field LLMOptions.promptTemplates defaults options0 with
    | Some custom => CallerTemplate <$> custom
    | None => ∅
    end ∪ (BuiltinTemplate <$> autodetectPromptTemplates model templateType) in
  let templateMessages :=
    or_else (spread_field LLMOptions.templateMessages defaults options0)
      (chatTemplateFunction <$> autodetectTemplateFunction model providerName template) in
  {| llm := {|
       providerName := providerName;
       model := model;
       title := title;
       systemMessage := spread_field LLMOptions.systemMessage defaults options0;
       contextLength :=
         number_or (spread_field LLMOptions.contextLength defaults options0)
           DEFAULT_CONTEXT_LENGTH;
       completionOptions := completionOptions2;
       templateMessages := templateMessages;
       writeLog := spread_field LLMOptions.writeLog defaults options0;
       llmRequestHook := spread_field LLMOptions.llmRequestHook defaults options0;
       override_streamComplete := class_streamComplete cls;
       override_streamChat := class_streamChat cls;
       override_complete := class_complete cls
     |};
     _llmOptions := options0;
     uniqueId := string_or (spread_field LLMOptions.uniqueId defaults options0) "None";
     requestOptions := spread_field LLMOptions.requestOptions defaults options0;
     promptTemplates := promptTemplates;
     apiKey := spread_field LLMOptions.apiKey defaults options0;
     apiBase := strip_trailing_slash (spread_field LLMOptions.apiBase defaults options0);
     engine := spread_field LLMOptions.engine defaults options0;
     apiVersion := spread_field LLMOptions.apiVersion defaults options0;
     apiType := spread_field LLMOptions.apiType defaults options0;
     region := spread_field LLMOptions.region defaults options0;
     projectId := spread_field LLMOptions.projectId defaults options0
  |}.

(** [collectArgs(options)]: [{ ...DEFAULT_ARGS, ...options }] *)
Definition collectArgs (options : JsObject) : JsObject :=
  Obj.spread (Obj.spread [] DEFAULT_ARGS) options.

End Constructor.

(** ** gui/src/components/mainInput/resolveInput.ts *)

(** [findLastIndex(array, predicate)]: the loop, with [n] the number of
    indices still to visit ([i = n - 1]).  An index below [array.length]
    always holds an element. *)
Fixpoint findLastIndex_loop {T} (array : list T) (predicate : T → Z → list T → bool)
    (n : nat) : Z :=
  match n with
  | O => (-1)%Z
  | S i =>
      match array !! i with
      | Some value =>
          if predicate value (Z.of_nat i) array then Z.of_nat i
          else findLastIndex_loop array predicate i
      | None => findLastIndex_loop array predicate i
      end
  end.

Definition findLastIndex {T} (array : list T) (predicate : T → Z → list T → bool) : Z :=
  findLastIndex_loop array predicate (List.length array).

(** [MentionAttrs] *)
Module MentionAttrs.
Record t : Type := Mk {
  label : string;
  id : string;
  itemType : option string;
  query : option string
}.
End MentionAttrs.
Abbreviation MentionAttrs := MentionAttrs.t.

(** A child of a paragraph node, by its [type]. *)
Inductive ParagraphChild : Type :=
| TextChild (text : string)
| MentionChild (attrs : MentionAttrs)
| SlashCommandChild (attrs : MentionAttrs)
| OtherChild (type : string).

(** The variables of [resolveParagraph], and what it passed to
    [console.warn]. *)
Record ParagraphState : Type := MkParagraphState {
  text : string;
  contextItems : list MentionAttrs;
  slashCommand : option string;
  warned : list string
}.

Definition resolveParagraph_step (st : ParagraphState) (child : ParagraphChild)
  : ParagraphState :=
  match child with
  | TextChild t =>
      MkParagraphState (text st ++ t) (contextItems st) (slashCommand st) (warned st)
  | MentionChild attrs =>
      MkParagraphState
        (if negb (array_includes ["codebase"] (MentionAttrs.id attrs)) then text st ++ MentionAttrs.label attrs
         else text st)
        (contextItems st ++ [attrs])%list (slashCommand st) (warned st)
  | SlashCommandChild attrs =>
      match slashCommand st with
      | None => MkParagraphState (text st) (contextItems st) (Some (MentionAttrs.id attrs)) (warned st)
      | Some _ =>
          MkParagraphState (text st ++ MentionAttrs.label attrs) (contextItems st) (slashCommand st)
            (warned st)
      end
  | OtherChild type =>
      MkParagraphState (text st) (contextItems st) (slashCommand st)
        (warned st ++ [type])%list
  end.

(** [resolveParagraph(p)], on [p.content || []]; the result is
    [[text, contextItems, slashCommand]]. *)
Definition resolveParagraph (content : list ParagraphChild) : ParagraphState :=
  fold_left resolveParagraph_step content (MkParagraphState "" [] None []).

(** What [resolveParagraph] takes from a child: the attributes of a
    mention, the identifier of a slash command, the type it warns about. *)
Definition child_mention (child : ParagraphChild) : option MentionAttrs :=
  match child with
  | MentionChild attrs => Some attrs
  | _ => None
  end.

Definition child_slashCommand (child : ParagraphChild) : option string :=
  match child with
  | SlashCommandChild attrs => Some (MentionAttrs.id attrs)
  | _ => None
  end.

Definition child_unexpected (child : ParagraphChild) : option string :=
  match child with
  | OtherChild type => Some type
  | _ => None
  end.

(** ** core/context/providers/ProblemsContextProvider.ts *)

(** [s.split("\n")] *)
Fixpoint split_lines (s : string) : list string :=
  match s with
  | EmptyString => [""]
  | String c s' =>
      if Ascii.eqb c "010" then "" :: split_lines s'
      else
        match split_lines s' with
        | line :: lines => String c line :: lines
        | [] => [String c ""]
        end
  end.

(** [arr.slice(start, end)] *)
Definition array_slice {A} (arr : list A) (start end_ : Z) : list A :=
  let len := Z.of_nat (List.length arr) in
  let k := if (start <? 0)%Z then Z.max (len + start) 0 else Z.min start len in
  let final := if (end_ <? 0)%Z then Z.max (len + end_) 0 else Z.min end_ len in
  take (Z.to_nat (final - k)) (drop (Z.to_nat k) arr).

Record Position : Type := MkPosition { line : Z; character : Z }.
Record Range : Type := MkRange { range_start : Position; range_end : Position }.
Record Problem : Type := MkProblem {
  filepath : string;
  range : Range;
  message : string
}.

Record ContextItem : Type := MkContextItem {
  item_description : string;
  item_content : string;
  item_name : string
}.

Section Problems.
(** [getBasename] of [../../util], and the editor behind [extras.ide]; a
    call of the editor that rejects is [None]. *)
Variable getBasename : string → string.
Variable ide_getProblems : option (list Problem).
Variable ide_readFile : string → option string.

(** The lines of the file shown for a problem. *)
Definition problem_lines (content : string) (problem : Problem) : list string :=
  array_slice (split_lines content)
    (Z.max 0 (line (range_start (range problem)) - 2))
    (line (range_end (range problem)) + 2).

(** The function mapped over the problems, after [ide.readFile] returned
    [content]. *)
Definition problem_item (content : string) (problem : Problem) : ContextItem :=
  let rangeContent := join_lines (problem_lines content problem) in
  {| item_description := "Problems in current file";
     item_content :=
       "```" ++ getBasename (filepath problem) ++ String "010" rangeContent ++
       String "010" ("```" ++ String "010" (message problem ++ String "010" (String "010" "")));
     item_name := "Warning in " ++ getBasename (filepath problem) |}.

(** [getContextItems(query, extras)]: resolves with the items, or rejects
    ([None]) when a call of the editor rejects. *)
Definition getContextItems (query : string) : option (list ContextItem) :=
  problems ← ide_getProblems;
  mapM (λ problem, content ← ide_readFile (filepath problem);
                   Some (problem_item content problem)) problems.

End Problems.

(** ** Statements shared by the further results *)

(** A result that names a template family other than "none". *)
Definition is_family (r : option TemplateType) : bool :=
  match r with
  | None | Some none => false
  | Some _ => true
  end.


(** What the logging steps of a call leave in its trace when the
    callbacks return: the request log and the hook before the request, the
    completion log after it. *)
Definition request_log_events {Y} (this : BaseLLM) (log : jsval) (prompt : string)
    (completionOptions : JsObject) : list (Event Y) :=
  if truthy log then
    (match writeLog this with
     | Some _ => [EWriteLog (_compileLogMessage this prompt completionOptions)]
     | None => []
     end ++
     match llmRequestHook this with
     | Some _ => [ERequestHook (Obj.get completionOptions "model") prompt]
     | None => []
     end)%list
  else [].

Definition completion_log_events {Y} (this : BaseLLM) (log : jsval) (completion : string)
  : list (Event Y) :=
  match writeLog this with
  | Some _ =>
      if truthy log
      then [EWriteLog ("Completion:" ++ String "010" (String "010"
                         (completion ++ String "010" (String "010" ""))))]
      else []
  | None => []
  end.

(** Logging cannot fail: it is switched off, or the callbacks return. *)
Definition logging_returns (this : BaseLLM) (options : JsObject) : Prop :=
  truthy (log_flag options) = false ∨ callbacks_return this.

Section MoreStatements.
Context `{Imports}.

(** The messages and the prompt a direct [streamChat] works with. *)
Definition chat_messages (this : BaseLLM) (options : JsObject) (messages : list ChatMessage)
  : list ChatMessage :=
  _compileChatMessages this (effective_options this options) messages None.

Definition chat_prompt (this : BaseLLM) (options : JsObject) (messages : list ChatMessage)
  : string :=
  match templateMessages this with
  | Some templateMessages => templateMessages (chat_messages this options messages)
  | None => _formatChatMessages (chat_messages this options messages)
  end.

(** The generator the loop of a direct [streamChat] iterates over, with
    the fragments as the loop yields them. *)
Definition chat_transport (this : BaseLLM) (options : JsObject) (messages : list ChatMessage)
  : Stream ChatMessage unit :=
  match templateMessages this with
  | Some _ =>
      let g :=
        _streamComplete this (chat_prompt this options messages)
          (effective_options this options) in
      MkStream (map (λ chunk, MkChatMessage assistant (Text chunk)) (chunks g)) (ending g)
  | None =>
      _streamChat this (chat_messages this options messages) (effective_options this options)
  end.

End MoreStatements.

(** What one message adds to [_formatChatMessages]. *)
Definition formatted_message (msg : ChatMessage) : string :=
  "<" ++ role_toString (role msg) ++ ">" ++ String "010"
    (content_toString (content msg) ++ String "010" (String "010" "")).

(** An object holds each of its keys once. *)
Definition well_formed (o : JsObject) : Prop := NoDup (map fst o).

(** ** More instances used to run the model *)

(** A provider with a chat template, a system message and both
    callbacks. *)
Definition templated_llm : BaseLLM := {|
  providerName := "replicate";
  model := "codellama-7b";
  title := Some "templated";
  systemMessage := Some "Be brief.";
  contextLength := 4096;
  completionOptions := [("model", JStr "codellama-7b"); ("maxTokens", JNum 1024)];
  templateMessages := Some _formatChatMessages;
  writeLog := Some (λ _, None);
  llmRequestHook := Some (λ _ _, None);
  override_streamComplete := Some (λ _ _, MkStream ["a"; "b"; "c"] (Returned tt));
  override_streamChat := None;
  override_complete := None
|}.

(** A provider whose transports break after two fragments, and whose log
    callback would throw if it were called. *)
Definition failing_llm : BaseLLM := {|
  providerName := "openai";
  model := "gpt-4";
  title := None;
  systemMessage := None;
  contextLength := 4096;
  completionOptions := [("model", JStr "gpt-4")];
  templateMessages := None;
  writeLog := Some (λ _, Some (MkError "disk full"));
  llmRequestHook := None;
  override_streamComplete :=
    Some (λ _ _, MkStream ["par"; "tial"] (Thrown (MkError "socket hang up")));
  override_streamChat :=
    Some (λ _ _,
      MkStream [MkChatMessage assistant (Text "par"); MkChatMessage assistant (Text "tial")]
        (Thrown (MkError "socket hang up")));
  override_complete := None
|}.

(** The same provider with a chat template. *)
Definition failing_templated_llm : BaseLLM := {|
  providerName := "replicate";
  model := "codellama-7b";
  title := None;
  systemMessage := None;
  contextLength := 4096;
  completionOptions := [("model", JStr "codellama-7b")];
  templateMessages := Some _formatChatMessages;
  writeLog := None;
  llmRequestHook := None;
  override_streamComplete :=
    Some (λ _ _, MkStream ["par"; "tial"] (Thrown (MkError "socket hang up")));
  override_streamChat := None;
  override_complete := None
|}.

Definition hello_messages : list ChatMessage := [MkChatMessage user (Text "hello")].

(** Options that switch logging off, and options that leave the defaults. *)
Definition quiet_options : JsObject := [("log", JBool false)].
Definition default_options : JsObject := [("temperature", JOther "0.2")].

Definition test_more_imports : MoreImports := {|
  DEFAULT_ARGS := [("maxTokens", JNum 2048); ("temperature", JOther "0.5")];
  CompletionOptionsForModels := ∅;
  chatTemplateFunction := λ _, _formatChatMessages
|}.

(** A subclass for a provider that does its own templating and overrides
    only the completion transport. *)
Definition openai_like_class : ProviderClass := {|
  static_providerName := "openai";
  static_defaultOptions := None;
  class_streamComplete := Some (λ _ _, MkStream ["a"; "b"; "c"] (Returned tt));
  class_streamChat := None;
  class_complete := None
|}.

Definition gpt4_options : LLMOptions.t := {|
  LLMOptions.title := None;
  LLMOptions.uniqueId := None;
  LLMOptions.model := "gpt-4";
  LLMOptions.systemMessage := None;
  LLMOptions.contextLength := None;
  LLMOptions.completionOptions := Some [("temperature", JOther "0.2"); ("maxTokens", JNum 0)];
  LLMOptions.requestOptions := None;
  LLMOptions.template := None;
  LLMOptions.promptTemplates := Some {["edit" := "my edit prompt"]};
  LLMOptions.templateMessages := None;
  LLMOptions.writeLog := None;
  LLMOptions.llmRequestHook := None;
  LLMOptions.apiKey := None;
  LLMOptions.apiBase := Some "https://x.com/";
  LLMOptions.engine := None;
  LLMOptions.apiVersion := None;
  LLMOptions.apiType := None;
  LLMOptions.region := None;
  LLMOptions.projectId := None
|}.

(** A file of six lines and a problem on its fourth line. *)
Definition six_lines : string :=
  "a" ++ String "010" ("b" ++ String "010" ("c" ++ String "010" ("d" ++ String "010"
    ("e" ++ String "010" "f")))).

Definition problem_on_line_3 : Problem :=
  MkProblem "/src/main.ts" (MkRange (MkPosition 3 0) (MkPosition 3 7)) "unused variable".

(** * Results *)

(** ** String primitives *)



Example toLowerCase_folds_letters : toLowerCase "CodeLlama-70B_x" = "codellama-70b_x".
Proof. reflexivity. Qed.

(** ** The registry *)

Example autodetect_codellama_34b : autodetectTemplateType "CodeLlama-34b" = Some llama2.
Proof. reflexivity. Qed.

Example autodetect_gpt : autodetectTemplateType "gpt-3.5-turbo" = None.
Proof. reflexivity. Qed.

Example autodetect_mistral : autodetectTemplateType "Mistral-7B" = Some llama2.
Proof. reflexivity. Qed.

Example autodetectTemplateFunction_openai :
  autodetectTemplateFunction "gpt-4" "openai" None = None ∧
  autodetectTemplateFunction "codellama-7b" "openai" None = None ∧
  autodetectTemplateFunction "codellama-7b" "replicate" None = Some llama2TemplateMessages ∧
  autodetectTemplateFunction "codellama-7b" "replicate" (Some none) = None.
Proof. repeat split; reflexivity. Qed.

Example autodetectPromptTemplates_mistral_case :
  autodetectPromptTemplates "mistral-7b" None !! "edit" = Some mistralEditPrompt ∧
  autodetectPromptTemplates "Mistral-7B" None !! "edit" = Some codellamaEditPrompt ∧
  autodetectPromptTemplates "gpt-4" None !! "edit" = None.
Proof. repeat split; reflexivity. Qed.

(** C8: [modelSupportsImages] is true for openai with
    gpt-4-vision-preview, false for openai with gpt-3.5-turbo, true for
    google-palm with gemini-ultra, and false for anthropic with claude-2. *)
Theorem modelSupportsImages_examples :
  modelSupportsImages "openai" "gpt-4-vision-preview" = true ∧
  modelSupportsImages "openai" "gpt-3.5-turbo" = false ∧
  modelSupportsImages "google-palm" "gemini-ultra" = true ∧
  modelSupportsImages "anthropic" "claude-2" = false.
Proof. repeat split; reflexivity. Qed.

(** C7: a model name whose lower-cased form contains both "codellama" and
    "70b" is classified codellama-70b, whatever other markers it has; in
    particular it is not classified llama2. *)
Theorem autodetectTemplateType_codellama_70b (model : string) :
  includes (toLowerCase model) "codellama" = true →
  includes (toLowerCase model) "70b" = true →
  autodetectTemplateType model = Some codellama_70b ∧
  autodetectTemplateType model ≠ Some llama2.
Proof.
  intros Hcl H70. unfold autodetectTemplateType.
  rewrite Hcl, H70. split; [reflexivity | discriminate].
Qed.

Lemma autodetectTemplateType_codellama_70b_witness :
  includes (toLowerCase "CodeLlama-70B-gpt-llava") "codellama" = true ∧
  includes (toLowerCase "CodeLlama-70B-gpt-llava") "70b" = true ∧
  autodetectTemplateType "CodeLlama-70B-gpt-llava" = Some codellama_70b.
Proof.
  split; [reflexivity | split; [reflexivity |]].
  apply (autodetectTemplateType_codellama_70b "CodeLlama-70B-gpt-llava"); reflexivity.
Defined.

(** C6: [autodetectTemplateType] is total and deterministic: every model
    name has exactly one result, the same at every call, and a name that
    matches no rule of the cascade is classified chatml. *)
Theorem autodetectTemplateType_total (model : string) :
  (exists! r, autodetectTemplateType model = r) ∧
  (∀ model', model' = model → autodetectTemplateType model' = autodetectTemplateType model) ∧
  (no_rule_matches (toLowerCase model) → autodetectTemplateType model = Some chatml).
Proof.
  split; [| split].
  - exists (autodetectTemplateType model). split; [reflexivity | auto].
  - intros model' ->. reflexivity.
  - intros [Hpair Hsingle]. unfold autodetectTemplateType.
    rewrite Hpair.
    unfold single_markers in Hsingle.
    repeat match goal with
           | Hf : Forall _ (_ :: _) |- _ =>
               let Hm := fresh "Hm" in
               apply Forall_cons in Hf as [Hm Hf]; rewrite Hm
           end.
    reflexivity.
Qed.

Lemma autodetectTemplateType_total_witness :
  no_rule_matches (toLowerCase "StarCoder-15B") ∧
  autodetectTemplateType "StarCoder-15B" = Some chatml.
Proof.
  assert (Hno : no_rule_matches (toLowerCase "StarCoder-15B")).
  { split; [reflexivity |]. unfold single_markers. repeat constructor. }
  split; [exact Hno |].
  exact (proj2 (proj2 (autodetectTemplateType_total "StarCoder-15B")) Hno).
Defined.

(** C5 (as amended): the "edit" slot is populated for every resolved
    template family, "none" included, which gets the generic
    [simplestEditPrompt]; the mapping has no "edit" entry exactly when no
    template type is resolved at all. *)
Theorem autodetectPromptTemplates_edit_slot (model : string)
    (explicitTemplate : option TemplateType) :
  match resolveTemplateType model explicitTemplate with
  | Some none =>
      autodetectPromptTemplates model explicitTemplate !! "edit" = Some simplestEditPrompt
  | Some _ => is_Some (autodetectPromptTemplates model explicitTemplate !! "edit")
  | None => autodetectPromptTemplates model explicitTemplate !! "edit" = None
  end.
Proof.
  unfold autodetectPromptTemplates.
  destruct (resolveTemplateType model explicitTemplate) as [[]|];
    try destruct (includes model "mistral");
    rewrite ?lookup_insert_eq, ?lookup_empty; eauto.
Qed.

(** C5 (as stated) fails: with the explicit template "none" the mapping
    does have an "edit" entry. *)
Lemma autodetectPromptTemplates_none_has_edit :
  resolveTemplateType "gpt-4" (Some none) = Some none ∧
  autodetectPromptTemplates "gpt-4" (Some none) !! "edit" ≠ None.
Proof. split; [reflexivity | discriminate]. Qed.

(** ** Running generators *)

Section GenFacts.
Context {Y : Type}.

(** A first step that emits nothing hands its result and the object on. *)
Lemma bind_silent {A B} (m : Gen Y A) (k : A → Gen Y B) (o o1 : JsObject) (a : A) :
  m o = (o1, ([], Returned a)) → bind m k o = k a o1.
Proof.
  intros Hm. unfold bind. rewrite Hm.
  destruct (k a o1) as [o2 [t2 r]]. reflexivity.
Qed.

Lemma bind_returns {A B} (m : Gen Y A) (k : A → Gen Y B) o o1 o2 t1 t2 a r :
  m o = (o1, (t1, Returned a)) → k a o1 = (o2, (t2, r)) →
  bind m k o = (o2, ((t1 ++ t2)%list, r)).
Proof. intros Hm Hk. unfold bind. rewrite Hm, Hk. reflexivity. Qed.

Lemma bind_throws {A B} (m : Gen Y A) (k : A → Gen Y B) o o1 t1 e :
  m o = (o1, (t1, Thrown e)) → bind m k o = (o1, (t1, Thrown e)).
Proof. intros Hm. unfold bind. rewrite Hm. reflexivity. Qed.

Lemma yields_app (t1 t2 : list (Event Y)) : yields (t1 ++ t2) = (yields t1 ++ yields t2)%list.
Proof.
  induction t1 as [|[] t1 IH]; simpl; rewrite ?IH; reflexivity.
Qed.

Lemma yields_map_EYield {X} (f : X → Y) (xs : list X) :
  yields (map (λ x, EYield (f x)) xs) = map f xs.
Proof. induction xs as [|x xs IH]; simpl; [|rewrite IH]; reflexivity. Qed.

(** A loop that yields one fragment per element and updates its
    variables without failing. *)
Lemma for_each_yield {X S} (f : X → Y) (g : S → X → S) (xs : list X) (s : S) (o : JsObject) :
  for_each (λ s x, yield (f x) ;; ret (g s x)) xs s o =
    (o, (map (λ x, EYield (f x)) xs, Returned (fold_left g xs s))).
Proof.
  revert s. induction xs as [|x xs IH]; intros s; simpl; [reflexivity |].
  unfold bind at 1. simpl. rewrite IH. reflexivity.
Qed.

Lemma append_empty_r (s : string) : s ++ "" = s.
Proof.
  induction s as [|c s IH]; [reflexivity |].
  change (String c (s ++ "") = String c s). rewrite IH. reflexivity.
Qed.

Lemma append_associative (s1 s2 s3 : string) : (s1 ++ s2) ++ s3 = s1 ++ (s2 ++ s3).
Proof.
  induction s1 as [|c s1 IH]; [reflexivity |].
  change (String c ((s1 ++ s2) ++ s3) = String c (s1 ++ (s2 ++ s3))).
  rewrite IH. reflexivity.
Qed.

Lemma fold_left_append (xs : list string) (s : string) :
  fold_left (λ acc x, acc ++ x) xs s = s ++ JsString.concat xs.
Proof.
  revert s. induction xs as [|x xs IH]; intros s; simpl.
  - symmetry. apply append_empty_r.
  - rewrite IH. apply append_associative.
Qed.

(** A loop over a collaborator's generator that yields one fragment per
    element: it yields them all, then ends as the generator ends. *)
Lemma for_await_yield {X R S} (f : X → Y) (g : S → X → S) (xs : list X)
    (e : Completion R) (s : S) (o : JsObject) :
  for_await (MkStream xs e) s (λ s x, yield (f x) ;; ret (g s x)) o =
    (o, (map (λ x, EYield (f x)) xs,
         match e with
         | Returned r => Returned (fold_left g xs s, r)
         | Thrown err => Thrown err
         end)).
Proof.
  unfold for_await. simpl chunks. simpl ending.
  destruct e as [r|err].
  - erewrite bind_returns; [| apply for_each_yield | reflexivity].
    rewrite app_nil_r. reflexivity.
  - erewrite bind_returns; [| apply for_each_yield | reflexivity].
    rewrite app_nil_r. reflexivity.
Qed.

Lemma for_await_yield_only {X R} (f : X → Y) (xs : list X) (e : Completion R)
    (o : JsObject) :
  for_await (MkStream xs e) () (λ _ x, yield (f x)) o =
    (o, (map (λ x, EYield (f x)) xs,
         match e with
         | Returned r => Returned ((), r)
         | Thrown err => Thrown err
         end)).
Proof.
  assert (Hloop : ∀ u, for_each (λ (_ : ()) x, yield (f x)) xs u o =
                       (o, (map (λ x, EYield (f x)) xs, Returned ()))).
  { induction xs as [|x xs IH]; intros u; simpl; [destruct u; reflexivity |].
    unfold bind at 1. simpl. rewrite IH. reflexivity. }
  unfold for_await. simpl chunks. simpl ending.
  destruct e as [r|err];
    (erewrite bind_returns; [| apply Hloop | reflexivity]);
    rewrite app_nil_r; reflexivity.
Qed.

Lemma options_after_bind_silent {A B} (m : Gen Y A) (k : A → Gen Y B) o o1 a :
  m o = (o1, ([], Returned a)) → keeps_options (k a) → options_after (bind m k) o = o1.
Proof.
  intros Hm Hk. unfold options_after. rewrite (bind_silent _ _ _ _ _ Hm). apply Hk.
Qed.

Lemma fold_left_append_map {X} (h : X → string) (xs : list X) (s : string) :
  fold_left (λ acc x, acc ++ h x) xs s = s ++ JsString.concat (map h xs).
Proof.
  rewrite <- fold_left_append. revert s.
  induction xs as [|x xs IH]; intros s; simpl; [|rewrite IH]; reflexivity.
Qed.

End GenFacts.

Section KeepsOptions.
Context {Y : Type}.

Lemma keeps_ret {A} (a : A) : keeps_options (ret a : Gen Y A).
Proof. intros o. reflexivity. Qed.

Lemma keeps_throw {A} (e : Error) : keeps_options (throw e : Gen Y A).
Proof. intros o. reflexivity. Qed.

Lemma keeps_emit (e : Event Y) : keeps_options (emit e).
Proof. intros o. reflexivity. Qed.

Lemma keeps_bind {A B} (m : Gen Y A) (k : A → Gen Y B) :
  keeps_options m → (∀ a, keeps_options (k a)) → keeps_options (bind m k).
Proof.
  intros Hm Hk o. unfold bind.
  specialize (Hm o). destruct (m o) as [o1 [t1 [a|e]]]; simpl in *; subst o1.
  - specialize (Hk a o). destruct (k a o) as [o2 [t2 r]]. exact Hk.
  - reflexivity.
Qed.

Lemma keeps_await {A} (c : Completion A) : keeps_options (await c : Gen Y A).
Proof. destruct c; [apply keeps_ret | apply keeps_throw]. Qed.

Lemma keeps_when (c : bool) (m : Gen Y unit) : keeps_options m → keeps_options (when c m).
Proof. destruct c; [auto | intros _; apply keeps_ret]. Qed.

Lemma keeps_try_catch {A} (m : Gen Y A) (h : Error → Gen Y A) :
  keeps_options m → (∀ e, keeps_options (h e)) → keeps_options (try_catch m h).
Proof.
  intros Hm Hh o. unfold try_catch.
  specialize (Hm o). destruct (m o) as [o1 [t1 [a|e]]]; simpl in *; subst o1.
  - reflexivity.
  - specialize (Hh e o). destruct (h e o) as [o2 [t2 r]]. exact Hh.
Qed.

Lemma keeps_for_each {X S} (body : S → X → Gen Y S) (xs : list X) (s : S) :
  (∀ s x, keeps_options (body s x)) → keeps_options (for_each body xs s).
Proof.
  intros Hbody. revert s. induction xs as [|x xs IH]; intros s; simpl.
  - apply keeps_ret.
  - apply keeps_bind; auto.
Qed.

Lemma keeps_for_await {X R S} (g : Stream X R) (s : S) (body : S → X → Gen Y S) :
  (∀ s x, keeps_options (body s x)) → keeps_options (for_await g s body).
Proof.
  intros Hbody. unfold for_await.
  apply keeps_bind; [apply keeps_for_each; exact Hbody |].
  intros s'. apply keeps_bind; [apply keeps_await |]. intros r. apply keeps_ret.
Qed.

End KeepsOptions.

Create HintDb keeps.
#[local] Hint Resolve keeps_ret keeps_throw keeps_emit keeps_await : keeps.
#[local] Hint Extern 2 (keeps_options (bind _ _)) => apply keeps_bind; [| intros ?] : keeps.
#[local] Hint Extern 2 (keeps_options (when _ _)) => apply keeps_when : keeps.
#[local] Hint Extern 2 (keeps_options (try_catch _ _)) =>
  apply keeps_try_catch; [| intros ?] : keeps.
#[local] Hint Extern 2 (keeps_options (for_await _ _ _)) =>
  apply keeps_for_await; intros ? ? : keeps.
#[local] Hint Extern 1 (keeps_options (yield _)) => apply keeps_emit : keeps.
#[local] Hint Extern 3 (keeps_options (match ?x with _ => _ end)) => destruct x : keeps.
#[local] Hint Extern 3 (keeps_options (let (_, _) := ?x in _)) => destruct x : keeps.

Section PipelineFacts.
Context `{Imports} `{Host}.

Lemma _parseCompletionOptions_run {Y} (this : BaseLLM) (o : JsObject) :
  _parseCompletionOptions (Y := Y) this o =
    (Obj.delete "raw" (Obj.delete "log" o),
     ([], Returned (effective_options this o, log_flag o, raw_flag o))).
Proof. reflexivity. Qed.

Lemma keeps_call_writeLog {Y} f s : keeps_options (call_writeLog (Y := Y) f s).
Proof. unfold call_writeLog. auto 10 with keeps. Qed.

Lemma keeps_call_llmRequestHook {Y} f m p :
  keeps_options (call_llmRequestHook (Y := Y) f m p).
Proof. unfold call_llmRequestHook. auto 10 with keeps. Qed.

#[local] Hint Resolve keeps_call_writeLog keeps_call_llmRequestHook : keeps.

Lemma keeps_log_request {Y} this log p co : keeps_options (log_request (Y := Y) this log p co).
Proof. unfold log_request. auto 10 with keeps. Qed.

Lemma keeps_log_completion {Y} this log c : keeps_options (log_completion (Y := Y) this log c).
Proof. unfold log_completion. auto 10 with keeps. Qed.

#[local] Hint Resolve keeps_log_request keeps_log_completion : keeps.
#[local] Hint Extern 1 (keeps_options (console_log _)) => apply keeps_emit : keeps.

(** With callbacks that return, the logging steps return and yield
    nothing. *)
Lemma log_request_returns {Y} this log p co o :
  callbacks_return this →
  ∃ t, log_request (Y := Y) this log p co o = (o, (t, Returned tt)) ∧ yields t = [].
Proof.
  intros [Hw Hh]. unfold log_request, when.
  destruct (truthy log); [| exists []; split; reflexivity].
  unfold bind, call_writeLog, call_llmRequestHook, bind, emit, ret.
  destruct (writeLog this) as [f|] eqn:Ew; destruct (llmRequestHook this) as [g|] eqn:Eh;
    simpl; rewrite ?(Hw f _ eq_refl), ?(Hh g _ _ eq_refl); simpl;
    eexists; split; reflexivity.
Qed.

Lemma log_completion_returns {Y} this log c o :
  callbacks_return this →
  ∃ t, log_completion (Y := Y) this log c o = (o, (t, Returned tt)) ∧ yields t = [].
Proof.
  intros [Hw _]. unfold log_completion, when.
  destruct (writeLog this) as [f|] eqn:Ew; [| exists []; split; reflexivity].
  destruct (truthy log); [| exists []; split; reflexivity].
  unfold call_writeLog, bind, emit, ret. simpl. rewrite (Hw f _ eq_refl). simpl.
  eexists; split; reflexivity.
Qed.

(** *** streamComplete *)

(** On the direct path [streamComplete] is the code after the options
    were parsed, run on the object with [log] and [raw] deleted. *)
Lemma streamComplete_direct_unfold (this : BaseLLM) (prompt : string) (options : JsObject) :
  _shouldRequestDirectly = true →
  streamComplete this prompt options =
    (let completionOptions := effective_options this options in
     let prompt := rendered_prompt this options prompt in
     log_request this (log_flag options) prompt completionOptions ;;
     let* (completion, _) :=
       for_await (_streamComplete this prompt completionOptions) ""
         (λ completion chunk, yield chunk ;; ret (completion ++ chunk)) in
     log_completion this (log_flag options) completion ;;
     ret (LLMReturnValue.Mk (Some prompt) (Some completion)))
      (Obj.delete "raw" (Obj.delete "log" options)).
Proof.
  intros Hdirect. unfold streamComplete. rewrite Hdirect. cbn [negb].
  rewrite (bind_silent _ _ _ _ _ (_parseCompletionOptions_run this options)).
  reflexivity.
Qed.

(** C2: on the direct path, [streamComplete] yields exactly the chunks of
    the provider transport [_streamComplete], in the transport's order;
    when the transport ends normally it returns the rendered prompt
    together with the concatenation of the chunks as completion. *)
Theorem streamComplete_yields_transport_chunks (this : BaseLLM) (prompt : string)
    (options : JsObject) (cs : list string) (e : Completion unit) :
  _shouldRequestDirectly = true →
  callbacks_return this →
  _streamComplete this (rendered_prompt this options prompt) (effective_options this options)
    = MkStream cs e →
  yields (trace_of (streamComplete this prompt) options) = cs ∧
  (e = Returned tt →
   outcome_of (streamComplete this prompt) options =
     Returned (LLMReturnValue.Mk (Some (rendered_prompt this options prompt))
                                (Some (JsString.concat cs)))).
Proof.
  intros Hdirect Hcb Hstream.
  unfold trace_of, outcome_of.
  rewrite (streamComplete_direct_unfold _ _ _ Hdirect). cbv zeta.
  rewrite Hstream.
  set (o := Obj.delete "raw" (Obj.delete "log" options)).
  set (p := rendered_prompt this options prompt).
  destruct (log_request_returns (Y := string) this (log_flag options) p
              (effective_options this options) o Hcb) as (t1 & Hrun1 & Hy1).
  pose proof (for_await_yield (λ x : string, x) (λ completion chunk, completion ++ chunk)
                cs e "" o) as Hloop.
  destruct e as [[]|err].
  - destruct (log_completion_returns (Y := string) this (log_flag options)
                (fold_left (λ completion chunk, completion ++ chunk) cs "") o Hcb)
      as (t3 & Hrun3 & Hy3).
    erewrite bind_returns;
      [| exact Hrun1
       | erewrite bind_returns;
           [reflexivity | exact Hloop
            | cbv beta iota; erewrite bind_returns; [reflexivity | exact Hrun3 | reflexivity]]].
    cbn [fst snd]. rewrite !yields_app, Hy1, Hy3, yields_map_EYield, map_id. simpl.
    rewrite app_nil_r, fold_left_append. split; [reflexivity | intros _; reflexivity].
  - erewrite bind_returns; [| exact Hrun1 | erewrite bind_throws; [reflexivity | exact Hloop]].
    cbn [fst snd]. rewrite !yields_app, Hy1, yields_map_EYield, map_id. simpl.
    split; [reflexivity | discriminate].
Qed.

(** *** The caller's options object *)

Lemma has_delete_eq (k : string) (o : JsObject) : Obj.has (Obj.delete k o) k = false.
Proof.
  induction o as [|[k' v] o IH]; simpl; [reflexivity |].
  destruct (String.eqb k' k) eqn:E; simpl; [exact IH |].
  rewrite E. exact IH.
Qed.

Lemma has_delete_ne (k k' : string) (o : JsObject) :
  k ≠ k' → Obj.has (Obj.delete k o) k' = Obj.has o k'.
Proof.
  intros Hne. induction o as [|[k0 v] o IH]; simpl; [reflexivity |].
  destruct (String.eqb k0 k) eqn:E; simpl.
  - apply String.eqb_eq in E. subst k0.
    destruct (String.eqb k k') eqn:E'; [apply String.eqb_eq in E'; contradiction |].
    exact IH.
  - rewrite IH. reflexivity.
Qed.

Lemma get_delete_ne (k k' : string) (o : JsObject) :
  k ≠ k' → Obj.get (Obj.delete k o) k' = Obj.get o k'.
Proof.
  intros Hne. induction o as [|[k0 v] o IH]; simpl; [reflexivity |].
  destruct (String.eqb k0 k) eqn:E; simpl.
  - apply String.eqb_eq in E. subst k0.
    destruct (String.eqb k k') eqn:E'; [apply String.eqb_eq in E'; contradiction |].
    exact IH.
  - rewrite IH. reflexivity.
Qed.

Lemma delete_log_raw (options : JsObject) :
  log_raw_deleted options (Obj.delete "raw" (Obj.delete "log" options)).
Proof.
  split; [| split].
  - rewrite has_delete_ne by discriminate. apply has_delete_eq.
  - apply has_delete_eq.
  - intros k Hlog Hraw.
    rewrite has_delete_ne, get_delete_ne by congruence.
    rewrite has_delete_ne, get_delete_ne by congruence.
    split; reflexivity.
Qed.

Lemma complete_direct_options (this : BaseLLM) (prompt : string) (options : JsObject) :
  _shouldRequestDirectly = true →
  options_after (complete this prompt) options = Obj.delete "raw" (Obj.delete "log" options).
Proof.
  intros Hdirect. unfold complete. rewrite Hdirect. cbn [negb].
  apply (options_after_bind_silent _ _ _ _ _ (_parseCompletionOptions_run this options)).
  cbv beta iota. auto 20 with keeps.
Qed.

Lemma streamComplete_direct_options (this : BaseLLM) (prompt : string) (options : JsObject) :
  _shouldRequestDirectly = true →
  options_after (streamComplete this prompt) options =
    Obj.delete "raw" (Obj.delete "log" options).
Proof.
  intros Hdirect. unfold streamComplete. rewrite Hdirect. cbn [negb].
  apply (options_after_bind_silent _ _ _ _ _ (_parseCompletionOptions_run this options)).
  cbv beta iota. auto 20 with keeps.
Qed.

Lemma streamChat_direct_options (this : BaseLLM) (messages : list ChatMessage)
    (options : JsObject) :
  _shouldRequestDirectly = true →
  options_after (streamChat this messages) options =
    Obj.delete "raw" (Obj.delete "log" options).
Proof.
  intros Hdirect. unfold streamChat. rewrite Hdirect. cbn [negb].
  apply (options_after_bind_silent _ _ _ _ _ (_parseCompletionOptions_run this options)).
  cbv beta iota. auto 20 with keeps.
Qed.

(** C9: a direct-path call of [complete], [streamComplete] or
    [streamChat] leaves the caller's options object without its "log" and
    "raw" keys and with every other key unchanged, however the call ends. *)
Theorem direct_call_deletes_log_and_raw (this : BaseLLM) (prompt : string)
    (messages : list ChatMessage) (options : JsObject) :
  _shouldRequestDirectly = true →
  log_raw_deleted options (options_after (complete this prompt) options) ∧
  log_raw_deleted options (options_after (streamComplete this prompt) options) ∧
  log_raw_deleted options (options_after (streamChat this messages) options).
Proof.
  intros Hdirect.
  rewrite complete_direct_options, streamComplete_direct_options,
    streamChat_direct_options by exact Hdirect.
  split; [| split]; apply delete_log_raw.
Qed.

(** *** streamChat and chat *)

(** C10: on the proxied path [streamChat] relays every fragment of the
    host's stream, in order, as a message whose role is "user". *)
Theorem streamChat_proxied_fragments_have_role_user (this : BaseLLM)
    (messages : list ChatMessage) (options : JsObject) :
  _shouldRequestDirectly = false →
  yields (trace_of (streamChat this messages) options) =
    map (λ value, MkChatMessage user (Text value))
      (chunks (ideStreamRequest (llmStreamChat messages (title this) options))) ∧
  Forall (λ fragment, role fragment = user)
    (yields (trace_of (streamChat this messages) options)).
Proof.
  intros Hproxied.
  assert (Hyields :
    yields (trace_of (streamChat this messages) options) =
      map (λ value, MkChatMessage user (Text value))
        (chunks (ideStreamRequest (llmStreamChat messages (title this) options)))).
  { unfold trace_of, streamChat. rewrite Hproxied. cbn [negb].
    rewrite (bind_silent read_options _ options options options eq_refl).
    destruct (ideStreamRequest (llmStreamChat messages (title this) options)) as [xs e].
    pose proof (for_await_yield_only (λ value, MkChatMessage user (Text value)) xs e options)
      as Hloop.
    destruct e as [next|err].
    - erewrite bind_returns; [| exact Hloop | reflexivity].
      cbn [fst snd chunks]. rewrite app_nil_r. apply yields_map_EYield.
    - erewrite bind_throws; [| exact Hloop].
      cbn [fst snd chunks]. apply yields_map_EYield. }
  split; [exact Hyields |].
  rewrite Hyields. apply Forall_map, Forall_true. intros value. reflexivity.
Qed.

(** Whatever the callbacks do, logging a request yields nothing and
    leaves the options object alone. *)
Lemma log_request_yields_nothing {Y} this log p co o :
  ∃ t r, log_request (Y := Y) this log p co o = (o, (t, r)) ∧ yields t = [] ∧
         (callbacks_return this → r = Returned tt).
Proof.
  unfold log_request, when.
  destruct (truthy log); [| exists [], (Returned tt); repeat split; reflexivity].
  unfold bind, call_writeLog, call_llmRequestHook, bind, emit, ret, throw.
  destruct (writeLog this) as [f|] eqn:Ew; destruct (llmRequestHook this) as [g|] eqn:Eh;
    simpl;
    repeat match goal with
           | |- context [match ?c with Some _ => _ | None => _ end] =>
               let E := fresh "E" in destruct c eqn:E; simpl
           end;
    do 2 eexists; (split; [reflexivity | split; [reflexivity |]]);
    intros [Hw Hh];
    try reflexivity;
    match goal with
    | Ew : writeLog this = Some ?f, E : ?f ?s = Some _ |- _ =>
        rewrite (Hw f s Ew) in E; discriminate
    | Eh : llmRequestHook this = Some ?g, E : ?g ?m ?p = Some _ |- _ =>
        rewrite (Hh g m p Eh) in E; discriminate
    end.
Qed.

(** Without a chat template and without a native chat transport, a direct
    [streamChat] yields nothing and throws; the transport for completions
    plays no part. *)
Lemma streamChat_without_template_or_native_chat (this : BaseLLM)
    (messages : list ChatMessage) (options : JsObject) :
  templateMessages this = None →
  override_streamChat this = None →
  _shouldRequestDirectly = true →
  ∃ t e,
    trace_of (streamChat this messages) options = t ∧
    outcome_of (streamChat this messages) options = Thrown e ∧
    yields t = [] ∧
    (callbacks_return this →
     e = MkError "You must either implement templateMessages or _streamChat" ∧
     EConsoleLog e ∈ t).
Proof.
  intros Htemplate Hchat Hdirect.
  unfold trace_of, outcome_of, streamChat. rewrite Hdirect. cbn [negb].
  rewrite (bind_silent _ _ _ _ _ (_parseCompletionOptions_run this options)).
  cbv beta iota zeta. rewrite Htemplate.
  set (o := Obj.delete "raw" (Obj.delete "log" options)).
  set (co := effective_options this options).
  set (msgs := _compileChatMessages this co messages None).
  destruct (log_request_yields_nothing (Y := ChatMessage) this (log_flag options)
              (_formatChatMessages msgs) co o) as (t1 & r1 & Hrun1 & Hy1 & Hr1).
  destruct r1 as [[]|e1].
  - set (err := MkError "You must either implement templateMessages or _streamChat").
    assert (Htry :
      try_catch
        (let* (completion, _) :=
           for_await (_streamChat this msgs co) ""
             (λ completion chunk, yield chunk ;;
                ret (completion ++ content_toString (content chunk))) in
         ret completion)
        (λ error, console_log error ;; throw error) o
      = (o, ([EConsoleLog err], Thrown err))).
    { unfold _streamChat, BaseLLM_streamChat. rewrite Hchat, Htemplate. reflexivity. }
    erewrite bind_returns; [| exact Hrun1 | erewrite bind_throws; [reflexivity | exact Htry]].
    exists (t1 ++ [EConsoleLog err])%list, err. cbn [fst snd].
    split; [reflexivity | split; [reflexivity | split]].
    + rewrite yields_app, Hy1. reflexivity.
    + intros _. split; [reflexivity |]. apply elem_of_app. right. apply list_elem_of_singleton.
      reflexivity.
  - erewrite bind_throws; [| exact Hrun1].
    exists t1, e1. cbn [fst snd].
    split; [reflexivity | split; [reflexivity | split; [exact Hy1 |]]].
    intros Hcb. specialize (Hr1 Hcb). discriminate.
Qed.

(** C4: an instance without [templateMessages] whose provider overrides
    neither [_streamChat] nor [_streamComplete] fails every direct-path
    [streamChat]: the call yields nothing and ends by throwing, and unless a
    logging callback threw first the error is the configuration error of
    [BaseLLM._streamChat]. *)
Theorem streamChat_misconfigured_throws (this : BaseLLM) (messages : list ChatMessage)
    (options : JsObject) :
  templateMessages this = None →
  override_streamChat this = None →
  override_streamComplete this = None →
  _shouldRequestDirectly = true →
  ∃ e,
    outcome_of (streamChat this messages) options = Thrown e ∧
    yields (trace_of (streamChat this messages) options) = [] ∧
    (callbacks_return this →
     e = MkError "You must either implement templateMessages or _streamChat").
Proof.
  intros Htemplate Hchat _ Hdirect.
  destruct (streamChat_without_template_or_native_chat this messages options
              Htemplate Hchat Hdirect) as (t & e & Ht & He & Hy & Hcfg).
  exists e. rewrite Ht. split; [exact He | split; [exact Hy |]].
  intros Hcb. apply (Hcfg Hcb).
Qed.

(** C3: [chat] runs [streamChat] to its end and, when that end is a
    return, returns one message, of role "assistant", whose content is the
    concatenation in yield order of the content of every fragment
    [streamChat] yielded. *)
Theorem chat_concatenates_streamChat (this : BaseLLM) (messages : list ChatMessage)
    (options options' : JsObject) (t : list (Event ChatMessage)) (r : LLMReturnValue) :
  streamChat this messages options = (options', (t, Returned r)) →
  chat this messages options =
    (options',
     (consumed t,
      Returned
        (MkChatMessage assistant
           (Text (JsString.concat
                    (map (λ fragment, content_toString (content fragment)) (yields t))))))).
Proof.
  intros Hrun. unfold chat.
  erewrite bind_returns; [| unfold for_await_gen; rewrite Hrun; reflexivity | reflexivity].
  rewrite app_nil_r, fold_left_append_map. reflexivity.
Qed.

(** When [streamChat] throws, [chat] throws the same error. *)
Lemma chat_propagates_throw (this : BaseLLM) (messages : list ChatMessage)
    (options options' : JsObject) (t : list (Event ChatMessage)) (e : Error) :
  streamChat this messages options = (options', (t, Thrown e)) →
  chat this messages options = (options', (consumed t, Thrown e)).
Proof.
  intros Hrun. unfold chat.
  erewrite bind_throws; [reflexivity | unfold for_await_gen; rewrite Hrun; reflexivity].
Qed.

End PipelineFacts.

(** ** The results on concrete instances *)

Lemma headless_is_direct : @_shouldRequestDirectly headless_host = true.
Proof. reflexivity. Defined.

Lemma vscode_is_proxied : @_shouldRequestDirectly vscode_host = false.
Proof. reflexivity. Defined.

Lemma abc_llm_callbacks_return : callbacks_return abc_llm.
Proof.
  split.
  - intros f s Hf. injection Hf as <-. reflexivity.
  - intros f m p Hf. discriminate Hf.
Defined.

Lemma bare_llm_callbacks_return : callbacks_return bare_llm.
Proof. split; [intros f s Hf | intros f m p Hf]; discriminate Hf. Defined.

(** The scenario of the specification: the transport emits a, b, c. *)
Lemma streamComplete_yields_transport_chunks_witness :
  yields (trace_of (@streamComplete test_imports headless_host abc_llm "hi") caller_options)
    = ["a"; "b"; "c"] ∧
  outcome_of (@streamComplete test_imports headless_host abc_llm "hi") caller_options
    = Returned (LLMReturnValue.Mk (Some "hi") (Some "abc")).
Proof.
  destruct (@streamComplete_yields_transport_chunks test_imports headless_host abc_llm "hi"
              caller_options ["a"; "b"; "c"] (Returned tt)
              headless_is_direct abc_llm_callbacks_return eq_refl) as [Hyields Hreturn].
  split; [exact Hyields | exact (Hreturn eq_refl)].
Defined.

Lemma direct_call_deletes_log_and_raw_witness :
  log_raw_deleted caller_options
    (options_after (@complete test_imports headless_host abc_llm "hi") caller_options) ∧
  log_raw_deleted caller_options
    (options_after (@streamComplete test_imports headless_host abc_llm "hi") caller_options) ∧
  log_raw_deleted caller_options
    (options_after (@streamChat test_imports headless_host abc_llm []) caller_options).
Proof.
  exact (@direct_call_deletes_log_and_raw test_imports headless_host abc_llm "hi" []
           caller_options headless_is_direct).
Defined.

Example caller_options_after_streamChat :
  options_after (@streamChat test_imports headless_host abc_llm []) caller_options =
    [("temperature", JOther "0.5"); ("maxTokens", JNum 256)].
Proof. reflexivity. Qed.

Lemma streamChat_proxied_fragments_have_role_user_witness :
  yields (trace_of (@streamChat test_imports vscode_host abc_llm []) caller_options) =
    [MkChatMessage user (Text "hel"); MkChatMessage user (Text "lo")].
Proof.
  exact (proj1 (@streamChat_proxied_fragments_have_role_user test_imports vscode_host
                  abc_llm [] caller_options vscode_is_proxied)).
Defined.

Lemma streamChat_misconfigured_throws_witness :
  outcome_of
    (@streamChat test_imports headless_host bare_llm [MkChatMessage user (Text "hello")]) []
  = Thrown (MkError "You must either implement templateMessages or _streamChat").
Proof.
  destruct (@streamChat_misconfigured_throws test_imports headless_host bare_llm
              [MkChatMessage user (Text "hello")] [] eq_refl eq_refl eq_refl
              headless_is_direct) as (e & Hthrown & _ & Hconfig).
  rewrite Hthrown. f_equal. exact (Hconfig bare_llm_callbacks_return).
Defined.

Lemma chat_concatenates_streamChat_witness :
  outcome_of (@chat test_imports headless_host abc_llm []) caller_options =
    Returned (MkChatMessage assistant (Text "xy")).
Proof.
  unfold outcome_of.
  rewrite (@chat_concatenates_streamChat test_imports headless_host abc_llm []
             caller_options _ _ _ eq_refl).
  reflexivity.
Defined.

Example chat_of_misconfigured_llm_throws :
  outcome_of (@chat test_imports headless_host bare_llm []) [] =
    Thrown (MkError "You must either implement templateMessages or _streamChat").
Proof. reflexivity. Qed.

Example complete_through_host :
  outcome_of (@complete test_imports vscode_host abc_llm "hi") caller_options =
    Returned "hello" ∧
  options_after (@complete test_imports vscode_host abc_llm "hi") caller_options =
    caller_options.
Proof. split; reflexivity. Qed.

(** * Further results *)

(** ** The registry, continued *)

Lemma lower_ascii_idempotent (c : ascii) : lower_ascii (lower_ascii c) = lower_ascii c.
Proof. destruct c as [[] [] [] [] [] [] [] []]; reflexivity. Qed.

Lemma toLowerCase_idempotent (s : string) : toLowerCase (toLowerCase s) = toLowerCase s.
Proof.
  induction s as [|c s IH]; [reflexivity |].
  cbn [toLowerCase]. rewrite lower_ascii_idempotent, IH. reflexivity.
Qed.



Lemma is_family_if (c : bool) (t : TemplateType) (r : option TemplateType) :
  is_family (Some t) = true → is_family r = true →
  is_family (if c then Some t else r) = true.
Proof. destruct c; auto. Qed.

Lemma autodetectTemplateType_results (model : string) :
  autodetectTemplateType model ≠ Some none ∧
  (autodetectTemplateType model = None ↔
   includes (toLowerCase model) "codellama" && includes (toLowerCase model) "70b" = false ∧
   includes (toLowerCase model) "gpt" || includes (toLowerCase model) "chat-bison" ||
   includes (toLowerCase model) "pplx" || includes (toLowerCase model) "gemini" = true).
Proof.
  unfold autodetectTemplateType. cbv zeta.
  destruct (includes (toLowerCase model) "codellama" && includes (toLowerCase model) "70b").
  { split; [discriminate | split; [discriminate | intros [? _]; discriminate]]. }
  destruct (includes (toLowerCase model) "gpt" || includes (toLowerCase model) "chat-bison" ||
            includes (toLowerCase model) "pplx" || includes (toLowerCase model) "gemini").
  { split; [discriminate | split; [intros _; split; reflexivity | reflexivity]]. }
  match goal with |- ?r ≠ _ ∧ _ => assert (Hfamily : is_family r = true) end.
  { repeat (apply is_family_if; [reflexivity |]). reflexivity. }
  match type of Hfamily with is_family ?r = true => destruct r as [[]|] end;
    try discriminate Hfamily;
    (split; [discriminate | split; [discriminate | intros [_ ?]; discriminate]]).
Qed.

(** X1: autodetection never answers "none", and it answers [undefined]
    exactly for a name that fails the codellama+70b test and carries a gpt,
    chat-bison, pplx or gemini marker. *)
Theorem autodetectTemplateType_undefined_iff (model : string) :
  autodetectTemplateType model ≠ Some none ∧
  (autodetectTemplateType model = None ↔
   includes (toLowerCase model) "codellama" && includes (toLowerCase model) "70b" = false ∧
   includes (toLowerCase model) "gpt" || includes (toLowerCase model) "chat-bison" ||
   includes (toLowerCase model) "pplx" || includes (toLowerCase model) "gemini" = true).
Proof. apply autodetectTemplateType_results. Qed.

(** X2: the classification does not depend on the case of the letters:
    a name and its lower-cased form get the same result. *)
Theorem autodetectTemplateType_toLowerCase (model : string) :
  autodetectTemplateType (toLowerCase model) = autodetectTemplateType model.
Proof.
  unfold autodetectTemplateType. rewrite toLowerCase_idempotent. reflexivity.
Qed.



(** X4: without an explicit template, [autodetectTemplateFunction] gives
    no template function exactly when the provider does the templating
    itself or autodetection leaves the family undefined. *)
Theorem autodetectTemplateFunction_null_iff (model : string) (provider : ModelProvider) :
  autodetectTemplateFunction model provider None = None ↔
  array_includes PROVIDER_HANDLES_TEMPLATING provider = true ∨
  autodetectTemplateType model = None.
Proof.
  unfold autodetectTemplateFunction. cbn [bool_decide decide_rel resolveTemplateType].
  rewrite bool_decide_eq_true_2 by reflexivity. cbn [andb].
  destruct (array_includes PROVIDER_HANDLES_TEMPLATING provider).
  { split; [left; reflexivity | reflexivity]. }
  destruct (autodetectTemplateType_results model) as [Hnone _].
  destruct (autodetectTemplateType model) as [[]|];
    try (split; [discriminate | intros [? | ?]; discriminate]).
  - contradiction Hnone. reflexivity.
  - split; [right; reflexivity | reflexivity].
Qed.

(** X5: an explicit template decides alone: the provider and the model
    name play no part, "none" gives no function and every other family
    gives one. *)
Theorem autodetectTemplateFunction_explicit (model model' : string)
    (provider provider' : ModelProvider) (t : TemplateType) :
  autodetectTemplateFunction model provider (Some t) =
    autodetectTemplateFunction model' provider' (Some t) ∧
  (autodetectTemplateFunction model provider (Some t) = None ↔ t = none).
Proof.
  unfold autodetectTemplateFunction, resolveTemplateType.
  rewrite !bool_decide_eq_false_2 by discriminate. cbn [andb].
  split; [reflexivity |].
  destruct t; split; (reflexivity || discriminate).
Qed.

Lemma autodetectPromptTemplates_only_edit_lemma (model : string)
    (explicitTemplate : option TemplateType) :
  (∀ k, k ≠ "edit" → autodetectPromptTemplates model explicitTemplate !! k = None) ∧
  autodetectPromptTemplates model (resolveTemplateType model explicitTemplate) =
    autodetectPromptTemplates model explicitTemplate.
Proof.
  split.
  - intros k Hk. unfold autodetectPromptTemplates.
    destruct (resolveTemplateType model explicitTemplate) as [[]|];
      try destruct (includes model "mistral");
      rewrite ?lookup_insert_ne, ?lookup_empty by congruence; reflexivity.
  - unfold autodetectPromptTemplates.
    assert (Hres : resolveTemplateType model (resolveTemplateType model explicitTemplate) =
                   resolveTemplateType model explicitTemplate).
    { unfold resolveTemplateType.
      destruct explicitTemplate as [t|]; [reflexivity |].
      destruct (autodetectTemplateType model); reflexivity. }
    rewrite Hres. reflexivity.
Qed.

(** X6: [autodetectPromptTemplates] sets no key but "edit", and resolving
    the template type before the call, as the constructor does, changes
    nothing. *)
Theorem autodetectPromptTemplates_only_edit (model : string)
    (explicitTemplate : option TemplateType) :
  (∀ k, k ≠ "edit" → autodetectPromptTemplates model explicitTemplate !! k = None) ∧
  autodetectPromptTemplates model (resolveTemplateType model explicitTemplate) =
    autodetectPromptTemplates model explicitTemplate.
Proof. apply autodetectPromptTemplates_only_edit_lemma. Qed.

(** X7: the mistral edit prompt is chosen exactly when the family is
    llama2 and the name, as given, contains "mistral" in lower case. *)
Theorem mistralEditPrompt_iff (model : string) (explicitTemplate : option TemplateType) :
  autodetectPromptTemplates model explicitTemplate !! "edit" = Some mistralEditPrompt ↔
  resolveTemplateType model explicitTemplate = Some llama2 ∧ includes model "mistral" = true.
Proof.
  unfold autodetectPromptTemplates.
  destruct (resolveTemplateType model explicitTemplate) as [[]|];
    try destruct (includes model "mistral");
    rewrite ?lookup_insert_eq, ?lookup_empty;
    split; try discriminate; try (intros [? ?]; discriminate); auto.
Qed.

(** ** The pipeline, continued *)

Section TraceFacts.
Context {X Y : Type}.

Lemma consumed_app (t1 t2 : list (Event X)) :
  consumed (Y := Y) (t1 ++ t2) = (consumed t1 ++ consumed t2)%list.
Proof. induction t1 as [|[] t1 IH]; simpl; rewrite ?IH; reflexivity. Qed.

Lemma consumed_map_EYield (xs : list X) : consumed (Y := Y) (map EYield xs) = [].
Proof. induction xs as [|x xs IH]; simpl; [reflexivity | exact IH]. Qed.

Lemma yields_map_EYield_id (xs : list X) : yields (map EYield xs) = xs.
Proof. induction xs as [|x xs IH]; simpl; [|rewrite IH]; reflexivity. Qed.

Lemma yields_request_log_events this log p co :
  yields (request_log_events (Y := X) this log p co) = [].
Proof.
  unfold request_log_events.
  destruct (truthy log), (writeLog this), (llmRequestHook this); reflexivity.
Qed.

Lemma yields_completion_log_events this log c :
  yields (completion_log_events (Y := X) this log c) = [].
Proof.
  unfold completion_log_events. destruct (writeLog this), (truthy log); reflexivity.
Qed.

Lemma consumed_request_log_events this log p co :
  consumed (request_log_events (Y := X) this log p co) =
    request_log_events (Y := Y) this log p co.
Proof.
  unfold request_log_events.
  destruct (truthy log), (writeLog this), (llmRequestHook this); reflexivity.
Qed.

Lemma consumed_completion_log_events this log c :
  consumed (completion_log_events (Y := X) this log c) =
    completion_log_events (Y := Y) this log c.
Proof.
  unfold completion_log_events. destruct (writeLog this), (truthy log); reflexivity.
Qed.

End TraceFacts.

Section PipelineMore.
Context `{Imports} `{Host}.

Lemma log_request_run {Y} this options p co o :
  logging_returns this options →
  log_request (Y := Y) this (log_flag options) p co o =
    (o, (request_log_events this (log_flag options) p co, Returned tt)).
Proof.
  unfold log_request, request_log_events, when.
  destruct (truthy (log_flag options)) eqn:Elog; [| reflexivity].
  intros [Hoff | [Hw Hh]]; [congruence |].
  unfold bind, call_writeLog, call_llmRequestHook, bind, emit, ret.
  destruct (writeLog this) as [f|] eqn:Ew; destruct (llmRequestHook this) as [g|] eqn:Eh;
    simpl; rewrite ?(Hw f _ eq_refl), ?(Hh g _ _ eq_refl); reflexivity.
Qed.

Lemma log_completion_run {Y} this options c o :
  logging_returns this options →
  log_completion (Y := Y) this (log_flag options) c o =
    (o, (completion_log_events this (log_flag options) c, Returned tt)).
Proof.
  unfold log_completion, completion_log_events, when.
  destruct (writeLog this) as [f|] eqn:Ew; [| reflexivity].
  destruct (truthy (log_flag options)) eqn:Elog; [| reflexivity].
  intros [Hoff | [Hw Hh]]; [congruence |].
  unfold bind, call_writeLog, bind, emit, ret. simpl. rewrite (Hw f _ Ew). reflexivity.
Qed.

(** The whole run of a direct [streamComplete] whose logging does not
    fail. *)
Lemma streamComplete_direct_run (this : BaseLLM) (prompt : string) (options : JsObject)
    (cs : list string) (e : Completion unit) :
  _shouldRequestDirectly = true →
  logging_returns this options →
  _streamComplete this (rendered_prompt this options prompt) (effective_options this options)
    = MkStream cs e →
  streamComplete this prompt options =
    (Obj.delete "raw" (Obj.delete "log" options),
     ((request_log_events this (log_flag options) (rendered_prompt this options prompt)
         (effective_options this options) ++
       map EYield cs ++
       match e with
       | Returned _ => completion_log_events this (log_flag options) (JsString.concat cs)
       | Thrown _ => []
       end)%list,
      match e with
      | Returned _ =>
          Returned (LLMReturnValue.Mk (Some (rendered_prompt this options prompt))
                                     (Some (JsString.concat cs)))
      | Thrown err => Thrown err
      end)).
Proof.
  intros Hdirect Hlog Hstream.
  rewrite (streamComplete_direct_unfold _ _ _ Hdirect). cbv zeta. rewrite Hstream.
  pose proof (for_await_yield (Y := string) (λ x : string, x)
                (λ completion chunk, completion ++ chunk) cs e "") as Hloop.
  rewrite fold_left_append in Hloop.
  destruct e as [[]|err].
  - etransitivity.
    { erewrite bind_returns;
        [reflexivity
        | apply (log_request_run _ _ _ _ _ Hlog)
        | erewrite bind_returns;
            [reflexivity | apply Hloop
            | cbv beta iota; erewrite bind_returns;
                [reflexivity | apply (log_completion_run _ _ _ _ Hlog) | reflexivity]]]. }
    rewrite app_nil_r. reflexivity.
  - etransitivity.
    { erewrite bind_returns;
        [reflexivity | apply (log_request_run _ _ _ _ _ Hlog)
        | erewrite bind_throws; [reflexivity | apply Hloop]]. }
    rewrite app_nil_r. reflexivity.
Qed.

(** X8: a direct [streamComplete] whose logging does not fail logs the
    request (and calls the request hook) before the first fragment, yields
    the transport's fragments, and logs the completion after the last one;
    it does nothing else that its caller can observe. *)
Theorem streamComplete_trace_order (this : BaseLLM) (prompt : string) (options : JsObject)
    (cs : list string) :
  _shouldRequestDirectly = true →
  logging_returns this options →
  _streamComplete this (rendered_prompt this options prompt) (effective_options this options)
    = MkStream cs (Returned tt) →
  trace_of (streamComplete this prompt) options =
    (request_log_events this (log_flag options) (rendered_prompt this options prompt)
       (effective_options this options) ++
     map EYield cs ++
     completion_log_events this (log_flag options) (JsString.concat cs))%list.
Proof.
  intros Hdirect Hlog Hstream. unfold trace_of.
  rewrite (streamComplete_direct_run _ _ _ _ _ Hdirect Hlog Hstream). reflexivity.
Qed.

(** X9: when the completion transport throws after some fragments, a
    direct [streamComplete] has yielded those fragments, throws the same
    error, and writes no completion log. *)
Theorem streamComplete_transport_failure (this : BaseLLM) (prompt : string)
    (options : JsObject) (cs : list string) (err : Error) :
  _shouldRequestDirectly = true →
  logging_returns this options →
  _streamComplete this (rendered_prompt this options prompt) (effective_options this options)
    = MkStream cs (Thrown err) →
  outcome_of (streamComplete this prompt) options = Thrown err ∧
  trace_of (streamComplete this prompt) options =
    (request_log_events this (log_flag options) (rendered_prompt this options prompt)
       (effective_options this options) ++ map EYield cs)%list.
Proof.
  intros Hdirect Hlog Hstream. unfold trace_of, outcome_of.
  rewrite (streamComplete_direct_run _ _ _ _ _ Hdirect Hlog Hstream).
  cbn [fst snd]. rewrite app_nil_r. split; reflexivity.
Qed.

(** X10: with logging switched off by the caller, a direct
    [streamComplete] calls neither [writeLog] nor [llmRequestHook], whatever
    they would do: its trace is the transport's fragments and nothing else. *)
Theorem streamComplete_log_off (this : BaseLLM) (prompt : string) (options : JsObject)
    (cs : list string) (e : Completion unit) :
  _shouldRequestDirectly = true →
  truthy (log_flag options) = false →
  _streamComplete this (rendered_prompt this options prompt) (effective_options this options)
    = MkStream cs e →
  trace_of (streamComplete this prompt) options = map EYield cs.
Proof.
  intros Hdirect Hoff Hstream. unfold trace_of.
  rewrite (streamComplete_direct_run _ _ _ _ _ Hdirect (or_introl Hoff) Hstream).
  cbn [fst snd]. unfold request_log_events, completion_log_events. rewrite Hoff.
  destruct e, (writeLog this); rewrite ?app_nil_r; reflexivity.
Qed.

(** *** streamChat, direct path *)

Lemma try_catch_returns {Y A} (m : Gen Y A) (h : Error → Gen Y A) o o1 t a :
  m o = (o1, (t, Returned a)) → try_catch m h o = (o1, (t, Returned a)).
Proof. intros Hm. unfold try_catch. rewrite Hm. reflexivity. Qed.

Lemma try_catch_throws {Y A} (m : Gen Y A) (h : Error → Gen Y A) o o1 o2 t1 t2 e r :
  m o = (o1, (t1, Thrown e)) → h e o1 = (o2, (t2, r)) →
  try_catch m h o = (o2, ((t1 ++ t2)%list, r)).
Proof. intros Hm Hh. unfold try_catch. rewrite Hm, Hh. reflexivity. Qed.

Lemma streamChat_direct_unfold (this : BaseLLM) (messages : list ChatMessage)
    (options : JsObject) :
  _shouldRequestDirectly = true →
  streamChat this messages options =
    (let completionOptions := effective_options this options in
     let prompt := chat_prompt this options messages in
     let messages := chat_messages this options messages in
     log_request this (log_flag options) prompt completionOptions ;;
     let* completion :=
       try_catch
         (match templateMessages this with
          | Some _ =>
              let* (completion, _) :=
                for_await (_streamComplete this prompt completionOptions) ""
                  (λ completion chunk,
                     yield (MkChatMessage assistant (Text chunk)) ;;
                     ret (completion ++ chunk)) in
              ret completion
          | None =>
              let* (completion, _) :=
                for_await (_streamChat this messages completionOptions) ""
                  (λ completion chunk,
                     yield chunk ;; ret (completion ++ content_toString (content chunk))) in
              ret completion
          end)
         (λ error, console_log error ;; throw error) in
     log_completion this (log_flag options) completion ;;
     ret (LLMReturnValue.Mk (Some prompt) (Some completion)))
      (Obj.delete "raw" (Obj.delete "log" options)).
Proof.
  intros Hdirect. unfold streamChat. rewrite Hdirect. cbn [negb].
  rewrite (bind_silent _ _ _ _ _ (_parseCompletionOptions_run this options)).
  reflexivity.
Qed.

(** The run of a direct [streamChat] from the run of the loop it wraps
    in [try]/[catch]. *)
Lemma streamChat_direct_from_loop (this : BaseLLM) (messages : list ChatMessage)
    (options : JsObject) (fragments : list ChatMessage) (completion : string)
    (e : Completion unit) :
  _shouldRequestDirectly = true →
  logging_returns this options →
  (∀ o,
     match templateMessages this with
     | Some _ =>
         let* (completion, _) :=
           for_await (_streamComplete this (chat_prompt this options messages)
                        (effective_options this options)) ""
             (λ completion chunk,
                yield (MkChatMessage assistant (Text chunk)) ;; ret (completion ++ chunk)) in
         ret completion
     | None =>
         let* (completion, _) :=
           for_await (_streamChat this (chat_messages this options messages)
                        (effective_options this options)) ""
             (λ completion chunk,
                yield chunk ;; ret (completion ++ content_toString (content chunk))) in
         ret completion
     end o =
     (o, (map EYield fragments,
          match e with
          | Returned _ => Returned completion
          | Thrown err => Thrown err
          end))) →
  streamChat this messages options =
    (Obj.delete "raw" (Obj.delete "log" options),
     ((request_log_events this (log_flag options) (chat_prompt this options messages)
         (effective_options this options) ++
       map EYield fragments ++
       match e with
       | Returned _ => completion_log_events this (log_flag options) completion
       | Thrown err => [EConsoleLog err]
       end)%list,
      match e with
      | Returned _ =>
          Returned (LLMReturnValue.Mk (Some (chat_prompt this options messages))
                                     (Some completion))
      | Thrown err => Thrown err
      end)).
Proof.
  intros Hdirect Hlog Hloop.
  rewrite (streamChat_direct_unfold _ _ _ Hdirect). cbv zeta.
  destruct e as [[]|err].
  - etransitivity.
    { erewrite bind_returns;
        [reflexivity
        | apply (log_request_run _ _ _ _ _ Hlog)
        | erewrite bind_returns;
            [reflexivity
            | apply try_catch_returns, Hloop
            | cbv beta; erewrite bind_returns;
                [reflexivity | apply (log_completion_run _ _ _ _ Hlog) | reflexivity]]]. }
    rewrite app_nil_r. reflexivity.
  - etransitivity.
    { erewrite bind_returns;
        [reflexivity
        | apply (log_request_run _ _ _ _ _ Hlog)
        | erewrite bind_throws;
            [reflexivity
            | eapply try_catch_throws; [apply Hloop | reflexivity]]]. }
    reflexivity.
Qed.

Lemma concat_contents_of_text (cs : list string) :
  JsString.concat
    (map (λ fragment, content_toString (content fragment))
       (map (λ chunk, MkChatMessage assistant (Text chunk)) cs)) = JsString.concat cs.
Proof. rewrite map_map. simpl. rewrite map_id. reflexivity. Qed.

(** The whole run of a direct [streamChat] whose logging does not fail. *)
Lemma streamChat_direct_run (this : BaseLLM) (messages : list ChatMessage)
    (options : JsObject) (fragments : list ChatMessage) (e : Completion unit) :
  _shouldRequestDirectly = true →
  logging_returns this options →
  chat_transport this options messages = MkStream fragments e →
  streamChat this messages options =
    (Obj.delete "raw" (Obj.delete "log" options),
     ((request_log_events this (log_flag options) (chat_prompt this options messages)
         (effective_options this options) ++
       map EYield fragments ++
       match e with
       | Returned _ =>
           completion_log_events this (log_flag options)
             (JsString.concat (map (λ fragment, content_toString (content fragment)) fragments))
       | Thrown err => [EConsoleLog err]
       end)%list,
      match e with
      | Returned _ =>
          Returned
            (LLMReturnValue.Mk (Some (chat_prompt this options messages))
               (Some (JsString.concat
                        (map (λ fragment, content_toString (content fragment)) fragments))))
      | Thrown err => Thrown err
      end)).
Proof.
  intros Hdirect Hlog Htransport.
  apply (streamChat_direct_from_loop this messages options fragments _ e Hdirect Hlog).
  intros o. unfold chat_transport in Htransport.
  destruct (templateMessages this) as [tm|].
  - destruct (_streamComplete this (chat_prompt this options messages)
                (effective_options this options)) as [cs e'] eqn:Hg.
    cbn [chunks ending] in Htransport. injection Htransport as <- <-.
    pose proof (for_await_yield (λ chunk, MkChatMessage assistant (Text chunk))
                  (λ completion chunk, completion ++ chunk) cs e' "" o) as Hloop.
    rewrite fold_left_append in Hloop.
    rewrite concat_contents_of_text.
    destruct e' as [[]|err].
    + etransitivity;
        [erewrite bind_returns; [reflexivity | apply Hloop | reflexivity] |].
      rewrite app_nil_r, map_map. reflexivity.
    + etransitivity; [erewrite bind_throws; [reflexivity | apply Hloop] |].
      rewrite map_map. reflexivity.
  - rewrite Htransport.
    pose proof (for_await_yield (λ chunk : ChatMessage, chunk)
                  (λ completion chunk, completion ++ content_toString (content chunk))
                  fragments e "" o) as Hloop.
    rewrite fold_left_append_map in Hloop.
    destruct e as [[]|err].
    + etransitivity;
        [erewrite bind_returns; [reflexivity | apply Hloop | reflexivity] |].
      rewrite app_nil_r. reflexivity.
    + etransitivity; [erewrite bind_throws; [reflexivity | apply Hloop] |].
      reflexivity.
Qed.

(** X11: with a chat template, a direct [streamChat] renders the compiled
    messages through it, streams the result through the completion
    transport and yields each chunk as an assistant fragment; a native
    [_streamChat] of the provider is not consulted. *)
Theorem streamChat_templated_path (this : BaseLLM) (messages : list ChatMessage)
    (options : JsObject) (tm : list ChatMessage → string) (cs : list string) :
  _shouldRequestDirectly = true →
  logging_returns this options →
  templateMessages this = Some tm →
  _streamComplete this (tm (chat_messages this options messages))
    (effective_options this options) = MkStream cs (Returned tt) →
  yields (trace_of (streamChat this messages) options) =
    map (λ chunk, MkChatMessage assistant (Text chunk)) cs ∧
  outcome_of (streamChat this messages) options =
    Returned (LLMReturnValue.Mk (Some (tm (chat_messages this options messages)))
                               (Some (JsString.concat cs))).
Proof.
  intros Hdirect Hlog Htm Hstream.
  assert (Hprompt : chat_prompt this options messages = tm (chat_messages this options messages)).
  { unfold chat_prompt. rewrite Htm. reflexivity. }
  assert (Htransport : chat_transport this options messages =
            MkStream (map (λ chunk, MkChatMessage assistant (Text chunk)) cs) (Returned tt)).
  { unfold chat_transport. rewrite Htm, Hprompt, Hstream. reflexivity. }
  unfold trace_of, outcome_of.
  rewrite (streamChat_direct_run _ _ _ _ _ Hdirect Hlog Htransport). cbn [fst snd].
  rewrite !yields_app, yields_request_log_events, yields_completion_log_events,
    yields_map_EYield_id, app_nil_r, concat_contents_of_text, Hprompt.
  split; reflexivity.
Qed.

(** X12: without a chat template, a direct [streamChat] hands the compiled
    messages to the provider's native [_streamChat], relays its fragments
    unchanged, and returns the flat rendering of the messages as prompt and
    the concatenated contents as completion. *)
Theorem streamChat_native_path (this : BaseLLM) (messages : list ChatMessage)
    (options : JsObject)
    (native : list ChatMessage → JsObject → Stream ChatMessage unit)
    (fragments : list ChatMessage) :
  _shouldRequestDirectly = true →
  logging_returns this options →
  templateMessages this = None →
  override_streamChat this = Some native →
  native (chat_messages this options messages) (effective_options this options)
    = MkStream fragments (Returned tt) →
  yields (trace_of (streamChat this messages) options) = fragments ∧
  outcome_of (streamChat this messages) options =
    Returned
      (LLMReturnValue.Mk
         (Some (_formatChatMessages (chat_messages this options messages)))
         (Some (JsString.concat
                  (map (λ fragment, content_toString (content fragment)) fragments)))).
Proof.
  intros Hdirect Hlog Htm Hnative Hstream.
  assert (Hprompt : chat_prompt this options messages =
            _formatChatMessages (chat_messages this options messages)).
  { unfold chat_prompt. rewrite Htm. reflexivity. }
  assert (Htransport : chat_transport this options messages =
            MkStream fragments (Returned tt)).
  { unfold chat_transport, _streamChat. rewrite Htm, Hnative. exact Hstream. }
  unfold trace_of, outcome_of.
  rewrite (streamChat_direct_run _ _ _ _ _ Hdirect Hlog Htransport). cbn [fst snd].
  rewrite !yields_app, yields_request_log_events, yields_completion_log_events,
    yields_map_EYield_id, app_nil_r, Hprompt.
  split; reflexivity.
Qed.

(** X13: when the transport behind a direct [streamChat] throws after some
    fragments, those fragments have been yielded, the error is passed to
    [console.log] and thrown again unchanged, and no completion log is
    written. *)
Theorem streamChat_transport_failure (this : BaseLLM) (messages : list ChatMessage)
    (options : JsObject) (fragments : list ChatMessage) (err : Error) :
  _shouldRequestDirectly = true →
  logging_returns this options →
  chat_transport this options messages = MkStream fragments (Thrown err) →
  outcome_of (streamChat this messages) options = Thrown err ∧
  trace_of (streamChat this messages) options =
    (request_log_events this (log_flag options) (chat_prompt this options messages)
       (effective_options this options) ++
     map EYield fragments ++ [EConsoleLog err])%list.
Proof.
  intros Hdirect Hlog Htransport. unfold trace_of, outcome_of.
  rewrite (streamChat_direct_run _ _ _ _ _ Hdirect Hlog Htransport).
  split; reflexivity.
Qed.

(** *** The proxied path *)

Lemma streamComplete_proxied_run (this : BaseLLM) (prompt : string) (options : JsObject) :
  _shouldRequestDirectly = false →
  streamComplete this prompt options =
    (options,
     (map EYield (chunks (ideStreamRequest (llmStreamComplete prompt (title this) options))),
      match ending (ideStreamRequest (llmStreamComplete prompt (title this) options)) with
      | Returned next =>
          Returned (LLMReturnValue.Mk (next ≫= LLMReturnValue.prompt)
                                     (next ≫= LLMReturnValue.completion))
      | Thrown err => Thrown err
      end)).
Proof.
  intros Hproxied. unfold streamComplete. rewrite Hproxied. cbn [negb].
  rewrite (bind_silent read_options _ options options options eq_refl).
  destruct (ideStreamRequest (llmStreamComplete prompt (title this) options)) as [xs e].
  pose proof (for_await_yield_only (λ value : string, value) xs e options) as Hloop.
  cbn [chunks ending].
  destruct e as [next|err].
  - etransitivity; [erewrite bind_returns; [reflexivity | exact Hloop | reflexivity] |].
    rewrite app_nil_r. reflexivity.
  - etransitivity; [erewrite bind_throws; [reflexivity | exact Hloop] |]. reflexivity.
Qed.

Lemma streamChat_proxied_run (this : BaseLLM) (messages : list ChatMessage)
    (options : JsObject) :
  _shouldRequestDirectly = false →
  streamChat this messages options =
    (options,
     (map EYield
        (map (λ value, MkChatMessage user (Text value))
           (chunks (ideStreamRequest (llmStreamChat messages (title this) options)))),
      match ending (ideStreamRequest (llmStreamChat messages (title this) options)) with
      | Returned next =>
          Returned (LLMReturnValue.Mk (next ≫= LLMReturnValue.prompt)
                                     (next ≫= LLMReturnValue.completion))
      | Thrown err => Thrown err
      end)).
Proof.
  intros Hproxied. unfold streamChat. rewrite Hproxied. cbn [negb].
  rewrite (bind_silent read_options _ options options options eq_refl).
  destruct (ideStreamRequest (llmStreamChat messages (title this) options)) as [xs e].
  pose proof (for_await_yield_only (λ value, MkChatMessage user (Text value)) xs e options)
    as Hloop.
  cbn [chunks ending]. rewrite map_map.
  destruct e as [next|err].
  - etransitivity; [erewrite bind_returns; [reflexivity | exact Hloop | reflexivity] |].
    rewrite app_nil_r. reflexivity.
  - etransitivity; [erewrite bind_throws; [reflexivity | exact Hloop] |]. reflexivity.
Qed.

Lemma complete_proxied_run (this : BaseLLM) (prompt : string) (options : JsObject) :
  _shouldRequestDirectly = false →
  complete this prompt options =
    (options, ([], ideRequest (llmComplete prompt (title this) options))).
Proof.
  intros Hproxied. unfold complete. rewrite Hproxied. cbn [negb].
  rewrite (bind_silent read_options _ options options options eq_refl).
  destruct (ideRequest (llmComplete prompt (title this) options)); reflexivity.
Qed.

(** X14: on the proxied path the three methods leave the caller's options
    object as it is, call neither [writeLog] nor [llmRequestHook], and log
    nothing to the console: [complete] leaves an empty trace, and the traces
    of the two generators hold yields only. *)
Theorem proxied_call_keeps_options (this : BaseLLM) (prompt : string)
    (messages : list ChatMessage) (options : JsObject) :
  _shouldRequestDirectly = false →
  (options_after (complete this prompt) options = options ∧
   trace_of (complete this prompt) options = []) ∧
  (options_after (streamComplete this prompt) options = options ∧
   trace_of (streamComplete this prompt) options =
     map EYield (yields (trace_of (streamComplete this prompt) options))) ∧
  (options_after (streamChat this messages) options = options ∧
   trace_of (streamChat this messages) options =
     map EYield (yields (trace_of (streamChat this messages) options))).
Proof.
  intros Hproxied. unfold options_after, trace_of.
  rewrite (complete_proxied_run _ _ _ Hproxied),
    (streamComplete_proxied_run _ _ _ Hproxied), (streamChat_proxied_run _ _ _ Hproxied).
  cbn [fst snd]. rewrite !yields_map_EYield_id. repeat split; reflexivity.
Qed.

(** X15: on the proxied path [streamComplete] yields the host's fragments
    unchanged and in order, and returns the [prompt] and [completion] of the
    host's final value, each [undefined] when the host ends without one; an
    error of the host's stream is thrown on. *)
Theorem streamComplete_proxied_relays_host (this : BaseLLM) (prompt : string)
    (options : JsObject) :
  _shouldRequestDirectly = false →
  yields (trace_of (streamComplete this prompt) options) =
    chunks (ideStreamRequest (llmStreamComplete prompt (title this) options)) ∧
  outcome_of (streamComplete this prompt) options =
    match ending (ideStreamRequest (llmStreamComplete prompt (title this) options)) with
    | Returned (Some final) =>
        Returned (LLMReturnValue.Mk (LLMReturnValue.prompt final)
                                   (LLMReturnValue.completion final))
    | Returned None => Returned (LLMReturnValue.Mk None None)
    | Thrown err => Thrown err
    end.
Proof.
  intros Hproxied. unfold trace_of, outcome_of.
  rewrite (streamComplete_proxied_run _ _ _ Hproxied). cbn [fst snd].
  rewrite yields_map_EYield_id. split; [reflexivity |].
  destruct (ending _) as [[final|]|err]; reflexivity.
Qed.

(** X16: on the proxied path [chat] returns a message of role "assistant"
    whose content is the concatenation of the host's fragments, although
    [streamChat] tagged each of them "user". *)
Theorem chat_proxied_returns_assistant (this : BaseLLM) (messages : list ChatMessage)
    (options : JsObject) (final : option LLMReturnValue) :
  _shouldRequestDirectly = false →
  ending (ideStreamRequest (llmStreamChat messages (title this) options)) = Returned final →
  chat this messages options =
    (options,
     ([],
      Returned
        (MkChatMessage assistant
           (Text (JsString.concat
                    (chunks (ideStreamRequest
                               (llmStreamChat messages (title this) options)))))))).
Proof.
  intros Hproxied Hend. unfold chat.
  etransitivity.
  { erewrite bind_returns; [reflexivity | | reflexivity].
    unfold for_await_gen. rewrite (streamChat_proxied_run _ _ _ Hproxied), Hend.
    reflexivity. }
  rewrite app_nil_r, consumed_map_EYield, yields_map_EYield_id, fold_left_append_map,
    map_map.
  simpl. rewrite map_id. reflexivity.
Qed.

(** *** complete *)

(** The logging steps behave alike in a generator and in a plain method. *)
Lemma log_request_any {Y1 Y2} this log p co o :
  ∃ t r,
    log_request (Y := Y1) this log p co o = (o, (t, r)) ∧
    log_request (Y := Y2) this log p co o = (o, (consumed t, r)) ∧
    yields t = [].
Proof.
  unfold log_request, when.
  destruct (truthy log); [| exists [], (Returned tt); repeat split; reflexivity].
  unfold bind, call_writeLog, call_llmRequestHook, bind, emit, ret, throw.
  destruct (writeLog this) as [f|]; destruct (llmRequestHook this) as [g|]; simpl;
    repeat match goal with
           | |- context [match ?c with Some _ => _ | None => _ end] => destruct c; simpl
           end;
    do 2 eexists; repeat split; reflexivity.
Qed.

Lemma log_completion_any {Y1 Y2} this log c o :
  ∃ t r,
    log_completion (Y := Y1) this log c o = (o, (t, r)) ∧
    log_completion (Y := Y2) this log c o = (o, (consumed t, r)) ∧
    yields t = [].
Proof.
  unfold log_completion, when.
  destruct (writeLog this) as [f|]; [| exists [], (Returned tt); repeat split; reflexivity].
  destruct (truthy log); [| exists [], (Returned tt); repeat split; reflexivity].
  unfold bind, call_writeLog, bind, emit, ret, throw. simpl.
  destruct (f _); simpl; do 2 eexists; repeat split; reflexivity.
Qed.

Lemma complete_direct_unfold (this : BaseLLM) (prompt : string) (options : JsObject) :
  _shouldRequestDirectly = true →
  complete this prompt options =
    (let completionOptions := effective_options this options in
     let prompt := rendered_prompt this options prompt in
     log_request this (log_flag options) prompt completionOptions ;;
     let* completion := await (_complete this prompt completionOptions) in
     log_completion this (log_flag options) completion ;;
     ret completion)
      (Obj.delete "raw" (Obj.delete "log" options)).
Proof.
  intros Hdirect. unfold complete. rewrite Hdirect. cbn [negb].
  rewrite (bind_silent _ _ _ _ _ (_parseCompletionOptions_run this options)).
  reflexivity.
Qed.

(** X17: for a provider that does not override [_complete], a direct
    [complete] does what a consumer of [streamComplete] does that appends
    the fragments as they come: the same callbacks in the same order, the
    same effect on the options object, and the concatenation as result, or
    the same error. *)
Theorem complete_is_drained_streamComplete (this : BaseLLM) (prompt : string)
    (options : JsObject) :
  _shouldRequestDirectly = true →
  override_complete this = None →
  complete this prompt options =
    for_await_gen (streamComplete this prompt) ""
      (λ completion chunk, completion ++ chunk) options.
Proof.
  intros Hdirect Hcomplete.
  unfold for_await_gen.
  rewrite (complete_direct_unfold _ _ _ Hdirect), (streamComplete_direct_unfold _ _ _ Hdirect).
  cbv zeta. unfold _complete. rewrite Hcomplete. unfold BaseLLM_complete.
  set (o := Obj.delete "raw" (Obj.delete "log" options)).
  set (p := rendered_prompt this options prompt).
  set (co := effective_options this options).
  destruct (_streamComplete this p co) as [cs e]. cbn [chunks ending].
  destruct (log_request_any (Y1 := string) (Y2 := Empty_set) this (log_flag options) p co o)
    as (t1 & r1 & Hgen1 & Hplain1 & Hy1).
  pose proof (for_await_yield (Y := string) (λ x : string, x)
                (λ completion chunk, completion ++ chunk) cs e "" o) as Hloop.
  destruct r1 as [[]|e1].
  2:{ rewrite (bind_throws _ _ _ _ _ _ Hplain1), (bind_throws _ _ _ _ _ _ Hgen1).
      reflexivity. }
  destruct e as [[]|err].
  - destruct (log_completion_any (Y1 := string) (Y2 := Empty_set) this (log_flag options)
                (fold_left (λ completion chunk, completion ++ chunk) cs "") o)
      as (t3 & r3 & Hgen3 & Hplain3 & Hy3).
    destruct r3 as [[]|e3].
    + erewrite (bind_returns _ _ _ _ _ _ _ _ _ Hplain1);
        [| erewrite bind_returns;
             [reflexivity | reflexivity
             | erewrite bind_returns; [reflexivity | exact Hplain3 | reflexivity]]].
      erewrite (bind_returns _ _ _ _ _ _ _ _ _ Hgen1);
        [| erewrite bind_returns;
             [reflexivity | exact Hloop
             | cbv beta iota; erewrite bind_returns;
                 [reflexivity | exact Hgen3 | reflexivity]]].
      rewrite !consumed_app, !yields_app, Hy1, Hy3, consumed_map_EYield,
        yields_map_EYield_id.
      simpl. rewrite !app_nil_r. reflexivity.
    + erewrite (bind_returns _ _ _ _ _ _ _ _ _ Hplain1);
        [| erewrite bind_returns;
             [reflexivity | reflexivity | erewrite bind_throws; [reflexivity | exact Hplain3]]].
      erewrite (bind_returns _ _ _ _ _ _ _ _ _ Hgen1);
        [| erewrite bind_returns;
             [reflexivity | exact Hloop
             | cbv beta iota; erewrite bind_throws; [reflexivity | exact Hgen3]]].
      rewrite !consumed_app, consumed_map_EYield. reflexivity.
  - erewrite (bind_returns _ _ _ _ _ _ _ _ _ Hplain1);
      [| erewrite bind_throws; [reflexivity | reflexivity]].
    erewrite (bind_returns _ _ _ _ _ _ _ _ _ Hgen1);
      [| erewrite bind_throws; [reflexivity | exact Hloop]].
    rewrite !consumed_app, consumed_map_EYield. reflexivity.
Qed.

(** *** _formatChatMessages *)

Lemma _formatChatMessages_concat (messages : list ChatMessage) :
  _formatChatMessages messages = JsString.concat (map formatted_message messages).
Proof.
  change (fold_left (λ formatted msg, formatted ++ formatted_message msg) messages "" =
          "" ++ JsString.concat (map formatted_message messages)).
  apply fold_left_append_map.
Qed.

Lemma concat_app (l1 l2 : list string) :
  JsString.concat (l1 ++ l2) = JsString.concat l1 ++ JsString.concat l2.
Proof.
  induction l1 as [|x l1 IH]; [reflexivity |].
  change (JsString.concat ((x :: l1) ++ l2)) with (x ++ JsString.concat (l1 ++ l2)).
  rewrite IH. symmetry. apply append_associative.
Qed.

(** X18: the fallback rendering of a conversation is compositional: each
    message contributes its role in angle brackets, a line break, its
    content and an empty line, and the rendering of a longer conversation is
    the rendering of its beginning followed by that of its end. *)
Theorem formatChatMessages_app (messages1 messages2 : list ChatMessage) (msg : ChatMessage) :
  _formatChatMessages (messages1 ++ messages2) =
    _formatChatMessages messages1 ++ _formatChatMessages messages2 ∧
  _formatChatMessages [msg] =
    "<" ++ role_toString (role msg) ++ ">" ++ String "010"
      (content_toString (content msg) ++ String "010" (String "010" "")) ∧
  _formatChatMessages [] = "".
Proof.
  rewrite !_formatChatMessages_concat, map_app, concat_app.
  split; [reflexivity | split; [| reflexivity]].
  simpl. apply append_empty_r.
Qed.

End PipelineMore.

(** ** Objects *)

Lemma get_set_eq (o : JsObject) (k : string) (v : jsval) : Obj.get (Obj.set o k v) k = v.
Proof.
  induction o as [|[k' v'] o IH]; simpl.
  - rewrite String.eqb_refl. reflexivity.
  - destruct (String.eqb k' k) eqn:E; simpl.
    + rewrite String.eqb_refl. reflexivity.
    + rewrite E. exact IH.
Qed.

Lemma get_set_ne (o : JsObject) (k k' : string) (v : jsval) :
  k ≠ k' → Obj.get (Obj.set o k v) k' = Obj.get o k'.
Proof.
  intros Hne. induction o as [|[k0 v0] o IH]; simpl.
  - destruct (String.eqb k k') eqn:E; [apply String.eqb_eq in E; contradiction | reflexivity].
  - destruct (String.eqb k0 k) eqn:E; simpl.
    + apply String.eqb_eq in E. subst k0.
      destruct (String.eqb k k') eqn:E'; [apply String.eqb_eq in E'; contradiction |].
      reflexivity.
    + rewrite IH. reflexivity.
Qed.

Lemma has_false_get (o : JsObject) (k : string) :
  Obj.has o k = false → Obj.get o k = JUndefined.
Proof.
  induction o as [|[k' v] o IH]; simpl; [reflexivity |].
  destruct (String.eqb k' k); simpl; [discriminate | exact IH].
Qed.

Lemma has_true_elem (o : JsObject) (k : string) :
  Obj.has o k = true → k ∈ map fst o.
Proof.
  induction o as [|[k' v] o IH]; simpl; [discriminate |].
  destruct (String.eqb k' k) eqn:E; simpl.
  - intros _. apply String.eqb_eq in E. subst k'. apply list_elem_of_here.
  - intros Hhas. apply list_elem_of_further, IH, Hhas.
Qed.

(** A key of the source wins in a spread; the other keys keep their
    value. *)
Lemma get_spread (o src : JsObject) (k : string) :
  well_formed src →
  Obj.get (Obj.spread o src) k = if Obj.has src k then Obj.get src k else Obj.get o k.
Proof.
  unfold well_formed, Obj.spread. revert o.
  induction src as [|[k1 v1] src IH]; intros o Hwf; simpl; [reflexivity |].
  apply NoDup_cons in Hwf as [Hfresh Hwf]. rewrite (IH _ Hwf).
  destruct (String.eqb k1 k) eqn:E; simpl.
  - apply String.eqb_eq in E. subst k1.
    destruct (Obj.has src k) eqn:Hhas; [apply has_true_elem in Hhas; contradiction |].
    apply get_set_eq.
  - destruct (Obj.has src k); [reflexivity |].
    apply get_set_ne. intros ->. rewrite String.eqb_refl in E. discriminate.
Qed.

(** ** The constructor and collectArgs *)

Lemma endsWith_app_slash (s : string) : endsWith (s ++ "/") "/" = true.
Proof.
  induction s as [|c s IH]; [reflexivity |].
  change (String c s ++ "/") with (String c (s ++ "/")).
  cbn [endsWith]. rewrite IH. apply orb_true_r.
Qed.

Lemma slice_0_minus1_app_slash (s : string) : slice_0_minus1 (s ++ "/") = s.
Proof.
  induction s as [|c s IH]; [reflexivity |].
  change (String c s ++ "/") with (String c (s ++ "/")).
  cbn [slice_0_minus1]. rewrite IH.
  destruct s; reflexivity.
Qed.

Lemma endsWith_spec (s t : string) : endsWith s t = true ↔ ∃ pre, s = pre ++ t.
Proof.
  induction s as [|c s IH].
  - cbn [endsWith]. rewrite orb_false_r, String.eqb_eq. split.
    + intros <-. exists "". reflexivity.
    + intros [pre Hpre]. destruct pre; [exact Hpre | discriminate Hpre].
  - cbn [endsWith]. rewrite orb_true_iff, String.eqb_eq, IH. split.
    + intros [<- | [pre ->]]; [exists ""; reflexivity | exists (String c pre); reflexivity].
    + intros [pre Hpre]. destruct pre as [|c' pre]; [left; exact Hpre |].
      right. exists pre.
      change (String c' pre ++ t) with (String c' (pre ++ t)) in Hpre.
      injection Hpre as _ Hpre. exact Hpre.
Qed.

Section ConstructorFacts.
Context `{Imports} `{MoreImports} `{Host}.

(** X19: the constructor strips one trailing slash from the base URL: a
    base URL [s/] is stored as [s], and one that does not end in a slash is
    stored as given. *)
Theorem new_BaseLLM_apiBase (cls : ProviderClass) (options : LLMOptions.t) (base : string) :
  spread_field LLMOptions.apiBase (static_defaultOptions cls) options = Some base →
  (∀ s, base = s ++ "/" → apiBase (new_BaseLLM cls options) = Some s) ∧
  ((∀ s, base ≠ s ++ "/") → apiBase (new_BaseLLM cls options) = Some base).
Proof.
  intros Hbase. cbn [new_BaseLLM apiBase]. rewrite Hbase. cbn [strip_trailing_slash]. split.
  - intros s ->. rewrite endsWith_app_slash, slice_0_minus1_app_slash. reflexivity.
  - intros Hnot. destruct (endsWith base "/") eqn:E; [| reflexivity].
    apply endsWith_spec in E as [pre ->]. contradiction (Hnot pre). reflexivity.
Qed.

(** X20: an instance built for a provider that does its own templating,
    with no template and no template function configured, has no chat
    template; if its class does not override [_streamChat] either, every
    direct [streamChat] on it throws the configuration error, whatever the
    model. *)
Theorem new_BaseLLM_self_templating_needs_native_chat (cls : ProviderClass)
    (options : LLMOptions.t) (messages : list ChatMessage) (o : JsObject) :
  array_includes PROVIDER_HANDLES_TEMPLATING (static_providerName cls) = true →
  spread_field LLMOptions.template (static_defaultOptions cls) options = None →
  spread_field LLMOptions.templateMessages (static_defaultOptions cls) options = None →
  class_streamChat cls = None →
  _shouldRequestDirectly = true →
  logging_returns (llm (new_BaseLLM cls options)) o →
  templateMessages (llm (new_BaseLLM cls options)) = None ∧
  outcome_of (streamChat (llm (new_BaseLLM cls options)) messages) o =
    Thrown (MkError "You must either implement templateMessages or _streamChat").
Proof.
  intros Hprovider Htemplate Hfunction Hchat Hdirect Hlog.
  assert (Htm : templateMessages (llm (new_BaseLLM cls options)) = None).
  { cbn [new_BaseLLM llm templateMessages]. rewrite Hfunction, Htemplate.
    unfold autodetectTemplateFunction. rewrite Hprovider. reflexivity. }
  split; [exact Htm |].
  assert (Htransport :
    chat_transport (llm (new_BaseLLM cls options)) o messages =
      MkStream [] (Thrown (MkError "You must either implement templateMessages or _streamChat"))).
  { unfold chat_transport, _streamChat, BaseLLM_streamChat. rewrite Htm.
    cbn [new_BaseLLM llm override_streamChat]. rewrite Hchat. reflexivity. }
  unfold outcome_of.
  rewrite (streamChat_direct_run _ _ _ _ _ Hdirect Hlog Htransport). reflexivity.
Qed.

(** X21: in [promptTemplates] an "edit" template of the caller replaces
    the autodetected one, the autodetected one is used when the caller gives
    none, and every other key holds what the caller gave. *)
Theorem new_BaseLLM_promptTemplates (cls : ProviderClass) (options : LLMOptions.t)
    (k : string) :
  promptTemplates (new_BaseLLM cls options) !! k =
    match spread_field LLMOptions.promptTemplates (static_defaultOptions cls) options
            ≫= (λ custom, custom !! k) with
    | Some s => Some (CallerTemplate s)
    | None =>
        if decide (k = "edit")
        then BuiltinTemplate <$>
               autodetectPromptTemplates (LLMOptions.model options)
                 (spread_field LLMOptions.template (static_defaultOptions cls) options)
               !! "edit"
        else None
    end.
Proof.
  cbn [new_BaseLLM promptTemplates].
  rewrite lookup_union, lookup_fmap.
  destruct (autodetectPromptTemplates_only_edit_lemma (LLMOptions.model options)
              (spread_field LLMOptions.template (static_defaultOptions cls) options))
    as [Honly Hresolved].
  rewrite Hresolved.
  destruct (spread_field LLMOptions.promptTemplates (static_defaultOptions cls) options)
    as [custom|]; cbn [mbind option_bind].
  - rewrite lookup_fmap. destruct (custom !! k) as [s|]; cbn.
    + destruct (autodetectPromptTemplates _ _ !! k); reflexivity.
    + destruct (decide (k = "edit")) as [->|Hk].
      * destruct (autodetectPromptTemplates _ _ !! "edit"); reflexivity.
      * rewrite (Honly k Hk). reflexivity.
  - rewrite lookup_empty. destruct (decide (k = "edit")) as [->|Hk].
    + destruct (autodetectPromptTemplates _ _ !! "edit"); reflexivity.
    + rewrite (Honly k Hk). reflexivity.
Qed.

(** X22: when the per-model table has no entry for the model, the
    completion options of the instance hold the model name under "model"
    ("gpt-4" for an empty name) whatever the caller put there, the caller's
    "maxTokens" or else the default under "maxTokens" (a 0 counts as not
    given), and every other key as the caller gave it. *)
Theorem new_BaseLLM_completionOptions (cls : ProviderClass) (options : LLMOptions.t)
    (given : JsObject) :
  CompletionOptionsForModels !! LLMOptions.model options = None →
  spread_field LLMOptions.completionOptions (static_defaultOptions cls) options = Some given →
  well_formed given →
  Obj.get (completionOptions (llm (new_BaseLLM cls options))) "model" =
    JStr (if String.eqb (LLMOptions.model options) "" then "gpt-4"
          else LLMOptions.model options) ∧
  Obj.get (completionOptions (llm (new_BaseLLM cls options))) "maxTokens" =
    (if truthy (Obj.get given "maxTokens") then Obj.get given "maxTokens"
     else JNum DEFAULT_MAX_TOKENS) ∧
  ∀ k, k ≠ "model" → k ≠ "maxTokens" →
    Obj.get (completionOptions (llm (new_BaseLLM cls options))) k = Obj.get given k.
Proof.
  intros Htable Hgiven Hwf.
  cbn [new_BaseLLM llm completionOptions]. rewrite Htable, Hgiven.
  split; [| split].
  - rewrite get_set_ne by discriminate. rewrite get_set_eq. reflexivity.
  - rewrite get_set_eq. reflexivity.
  - intros k Hmodel Htokens.
    rewrite !get_set_ne by congruence. rewrite (get_spread _ _ _ Hwf).
    destruct (Obj.has given k) eqn:Hhas; [reflexivity |].
    rewrite (has_false_get _ _ Hhas). reflexivity.
Qed.

(** X23: in [collectArgs] a key of the call's options wins over
    [DEFAULT_ARGS], and a key the options lack keeps its default. *)
Theorem collectArgs_precedence (options : JsObject) (k : string) :
  well_formed DEFAULT_ARGS →
  well_formed options →
  Obj.get (collectArgs options) k =
    if Obj.has options k then Obj.get options k else Obj.get DEFAULT_ARGS k.
Proof.
  intros Hdefaults Hoptions. unfold collectArgs.
  rewrite (get_spread _ _ _ Hoptions), (get_spread _ _ _ Hdefaults).
  destruct (Obj.has options k); [reflexivity |].
  destruct (Obj.has DEFAULT_ARGS k) eqn:Hhas; [reflexivity |].
  rewrite (has_false_get _ _ Hhas). reflexivity.
Qed.

End ConstructorFacts.

(** ** resolveInput.ts *)

Section FindLastIndex.
Context {T : Type}.
Local Open Scope nat_scope.
Implicit Types (array : list T) (predicate : T → Z → list T → bool).

(** After the loop has visited the indices from [n - 1] down: it stopped
    at the last index below [n] that satisfies the predicate, or found
    none. *)
Lemma findLastIndex_loop_spec array predicate (n : nat) :
  n ≤ List.length array →
  (findLastIndex_loop array predicate n = (-1)%Z ∧
   ∀ i x, i < n → array !! i = Some x → predicate x (Z.of_nat i) array = false) ∨
  (∃ i x, findLastIndex_loop array predicate n = Z.of_nat i ∧ i < n ∧
     array !! i = Some x ∧ predicate x (Z.of_nat i) array = true ∧
     ∀ j y, i < j → j < n → array !! j = Some y → predicate y (Z.of_nat j) array = false).
Proof.
  induction n as [|n IH]; intros Hn.
  - left. split; [reflexivity | intros i x Hi; lia].
  - cbn [findLastIndex_loop].
    destruct (lookup_lt_is_Some_2 array n ltac:(lia)) as [value Hvalue].
    rewrite Hvalue.
    destruct (predicate value (Z.of_nat n) array) eqn:Hp.
    + right. exists n, value.
      split; [reflexivity |]. split; [lia |]. split; [exact Hvalue |]. split; [exact Hp |].
      intros j y Hj Hj'. lia.
    + destruct (IH ltac:(lia)) as [[Hnone Hall] | (i & x & Hr & Hi & Hx & Hpx & Hlater)].
      * left. split; [exact Hnone |]. intros i x Hi Hx.
        destruct (decide (i = n)) as [->|Hne]; [congruence | apply (Hall i x); [lia | exact Hx]].
      * right. exists i, x.
        split; [exact Hr |]. split; [lia |]. split; [exact Hx |]. split; [exact Hpx |].
        intros j y Hj Hj' Hy.
        destruct (decide (j = n)) as [->|Hne]; [congruence | apply (Hlater j y); [lia.. | exact Hy]].
Qed.

(** X24: [findLastIndex] returns -1 exactly when no element satisfies the
    predicate; the empty array is such a case. *)
Theorem findLastIndex_not_found array predicate :
  findLastIndex array predicate = (-1)%Z ↔
  ∀ i x, array !! i = Some x → predicate x (Z.of_nat i) array = false.
Proof.
  unfold findLastIndex.
  destruct (findLastIndex_loop_spec array predicate (List.length array) ltac:(lia))
    as [[Hnone Hall] | (i & x & Hr & Hi & Hx & Hpx & Hlater)].
  - split; [| intros _; exact Hnone].
    intros _ i x Hx. apply (Hall i x); [| exact Hx]. apply lookup_lt_Some in Hx. exact Hx.
  - rewrite Hr. split; [lia |]. intros Hall. rewrite (Hall i x Hx) in Hpx. discriminate.
Qed.

(** X25: when [findLastIndex] returns an index other than -1, the index
    is within the array, its element satisfies the predicate, and no
    element after it does. *)
Theorem findLastIndex_found array predicate (r : Z) :
  findLastIndex array predicate = r →
  r ≠ (-1)%Z →
  (0 ≤ r < Z.of_nat (List.length array))%Z ∧
  (∃ x, array !! Z.to_nat r = Some x ∧ predicate x r array = true) ∧
  ∀ j y, (r < Z.of_nat j)%Z → array !! j = Some y → predicate y (Z.of_nat j) array = false.
Proof.
  unfold findLastIndex. intros <- Hfound.
  destruct (findLastIndex_loop_spec array predicate (List.length array) ltac:(lia))
    as [[Hnone Hall] | (i & x & Hr & Hi & Hx & Hpx & Hlater)]; [contradiction |].
  rewrite Hr. split; [lia | split].
  - exists x. rewrite Nat2Z.id. split; assumption.
  - intros j y Hj Hy. apply (Hlater j y); [lia | | exact Hy].
    apply lookup_lt_Some in Hy. exact Hy.
Qed.

End FindLastIndex.

Lemma findLastIndex_found_witness :
  let parts := [TextPart "a"; ImageUrlPart "u"; TextPart "b"; ImageUrlPart "v"] in
  let is_text := λ (part : MessagePart) (_ : Z) (_ : list MessagePart),
    match part with TextPart _ => true | ImageUrlPart _ => false end in
  (0 ≤ 2 < Z.of_nat (List.length parts))%Z ∧
  (∃ x, parts !! Z.to_nat 2 = Some x ∧ is_text x 2%Z parts = true) ∧
  ∀ j y, (2 < Z.of_nat j)%Z → parts !! j = Some y → is_text y (Z.of_nat j) parts = false.
Proof.
  exact (findLastIndex_found
           [TextPart "a"; ImageUrlPart "u"; TextPart "b"; ImageUrlPart "v"]
           (λ part _ _, match part with TextPart _ => true | ImageUrlPart _ => false end)
           2%Z eq_refl ltac:(discriminate)).
Defined.

(** The variables of [resolveParagraph] after the loop, from any state. *)
Lemma resolveParagraph_from (content : list ParagraphChild) (st : ParagraphState) :
  contextItems (fold_left resolveParagraph_step content st) =
    (contextItems st ++ omap child_mention content)%list ∧
  warned (fold_left resolveParagraph_step content st) =
    (warned st ++ omap child_unexpected content)%list ∧
  slashCommand (fold_left resolveParagraph_step content st) =
    match slashCommand st with
    | Some c => Some c
    | None => head (omap child_slashCommand content)
    end.
Proof.
  revert st. induction content as [|child content IH]; intros st.
  - cbn. rewrite !app_nil_r. destruct (slashCommand st); repeat split; reflexivity.
  - cbn [fold_left]. destruct (IH (resolveParagraph_step st child)) as (Hitems & Hwarned & Hslash).
    rewrite Hitems, Hwarned, Hslash.
    destruct child as [t|attrs|attrs|type]; cbn.
    + repeat split; reflexivity.
    + rewrite <- app_assoc. repeat split; reflexivity.
    + destruct (slashCommand st); cbn; repeat split; reflexivity.
    + rewrite <- app_assoc. repeat split; reflexivity.
Qed.


(** X27: the slash command [resolveParagraph] returns is the identifier
    of the first slash-command child, and it is undefined exactly when the
    paragraph has none. *)
Theorem resolveParagraph_slashCommand (content : list ParagraphChild) :
  slashCommand (resolveParagraph content) = head (omap child_slashCommand content).
Proof.
  unfold resolveParagraph.
  destruct (resolveParagraph_from content (MkParagraphState "" [] None [])) as (_ & _ & H3).
  exact H3.
Qed.

Example resolveParagraph_run :
  let codebase := MentionAttrs.Mk "@codebase" "codebase" (Some "contextProvider") None in
  let file := MentionAttrs.Mk "@main.ts" "/src/main.ts" (Some "file") None in
  let edit := MentionAttrs.Mk "/edit" "edit" None None in
  let share := MentionAttrs.Mk "/share" "share" None None in
  resolveParagraph
    [SlashCommandChild edit; TextChild " fix "; MentionChild file; MentionChild codebase;
     SlashCommandChild share; OtherChild "hardBreak"] =
  MkParagraphState " fix @main.ts/share" [file; codebase] (Some "edit") ["hardBreak"].
Proof. reflexivity. Qed.

(** ** ProblemsContextProvider.ts *)

Section SliceFacts.
Local Open Scope nat_scope.

(** [slice] with bounds that are not negative: the elements from [start]
    up to, not including, [end]. *)
Lemma array_slice_lookup {A} (arr : list A) (start end_ : Z) (j : nat) :
  (0 ≤ start)%Z → (0 ≤ end_)%Z →
  array_slice arr start end_ !! j =
    if decide (start + Z.of_nat j < end_)%Z then arr !! (Z.to_nat start + j) else None.
Proof.
  intros Hstart Hend. unfold array_slice.
  destruct (Z.ltb_spec start 0) as [?|_]; [lia |].
  destruct (Z.ltb_spec end_ 0) as [?|_]; [lia |].
  destruct (decide (start + Z.of_nat j < end_)%Z) as [Hin|Hout].
  - destruct (decide (Z.to_nat start + j < List.length arr)) as [Hlt|Hge].
    + rewrite lookup_take_lt by lia. rewrite lookup_drop. f_equal. lia.
    + rewrite (lookup_ge_None_2 arr (Z.to_nat start + j)) by lia.
      apply lookup_ge_None_2. rewrite length_take, length_drop. lia.
  - apply lookup_ge_None_2. rewrite length_take, length_drop. lia.
Qed.

Lemma array_slice_length {A} (arr : list A) (start end_ : Z) :
  (0 ≤ start)%Z → (0 ≤ end_)%Z →
  List.length (array_slice arr start end_) ≤ Z.to_nat (end_ - start).
Proof.
  intros Hstart Hend. unfold array_slice.
  destruct (Z.ltb_spec start 0) as [?|_]; [lia |].
  destruct (Z.ltb_spec end_ 0) as [?|_]; [lia |].
  rewrite length_take, length_drop. lia.
Qed.

Lemma array_slice_all {A} (arr : list A) (end_ : Z) :
  (Z.of_nat (List.length arr) ≤ end_)%Z → array_slice arr 0 end_ = arr.
Proof.
  intros Hend. unfold array_slice.
  destruct (Z.ltb_spec end_ 0) as [?|_]; [lia |].
  cbn [Z.ltb Z.compare]. rewrite (Z.min_l 0) by lia. rewrite (Z.min_r end_) by lia.
  cbn [Z.to_nat]. rewrite drop_0. apply take_ge. lia.
Qed.

End SliceFacts.

Lemma split_lines_nonempty (s : string) : split_lines s ≠ [].
Proof.
  induction s as [|c s IH]; cbn [split_lines]; [discriminate |].
  destruct (Ascii.eqb c "010"); [discriminate |].
  destruct (split_lines s); [contradiction | discriminate].
Qed.

(** Joining the lines of a text gives the text back. *)
Lemma join_lines_split_lines (s : string) : join_lines (split_lines s) = s.
Proof.
  induction s as [|c s IH]; [reflexivity |].
  cbn [split_lines].
  pose proof (split_lines_nonempty s) as Hne.
  destruct (Ascii.eqb c "010") eqn:E.
  - apply Ascii.eqb_eq in E. subst c.
    destruct (split_lines s) as [|line lines] eqn:Hs; [contradiction |].
    change (join_lines ("" :: line :: lines)) with ("" ++ String "010" (join_lines (line :: lines))).
    rewrite IH. reflexivity.
  - destruct (split_lines s) as [|line lines] eqn:Hs; [contradiction |].
    destruct lines as [|line' lines].
    + cbn [join_lines] in *. rewrite IH. reflexivity.
    + change (join_lines (String c line :: line' :: lines))
        with (String c line ++ String "010" (join_lines (line' :: lines))).
      change (join_lines (line :: line' :: lines))
        with (line ++ String "010" (join_lines (line' :: lines))) in IH.
      rewrite <- IH. reflexivity.
Qed.

Section ProblemFacts.
Variable getBasename : string → string.
Variable ide_getProblems : option (list Problem).
Variable ide_readFile : string → option string.

(** X28: the excerpt shown for a problem is the lines of the file from two
    before the first line of the problem (from line 0 when there are fewer)
    up to one after its last line, as far as the file has them: two lines of
    context before, one after. *)
Theorem problem_lines_window (content : string) (problem : Problem) :
  let first := Z.max 0 (line (range_start (range problem)) - 2) in
  let last := (line (range_end (range problem)) + 1)%Z in
  (0 ≤ last + 1)%Z →
  (∀ i, (first ≤ i ≤ last)%Z →
     problem_lines content problem !! Z.to_nat (i - first) =
       split_lines content !! Z.to_nat i) ∧
  (List.length (problem_lines content problem) ≤ Z.to_nat (last + 1 - first))%nat.
Proof.
  intros first last Hlast. unfold problem_lines. fold first.
  replace (line (range_end (range problem)) + 2)%Z with (last + 1)%Z by (unfold last; lia).
  split.
  - intros i Hi.
    rewrite array_slice_lookup by (unfold first; lia).
    rewrite decide_True by lia. f_equal. unfold first in *. lia.
  - apply array_slice_length; unfold first; lia.
Qed.

(** X29: when the problem starts within the first three lines and ends
    within the last two lines of the file or later, the excerpt is the
    whole file. *)
Theorem problem_lines_whole_file (content : string) (problem : Problem) :
  (line (range_start (range problem)) ≤ 2)%Z →
  (Z.of_nat (List.length (split_lines content)) ≤ line (range_end (range problem)) + 2)%Z →
  join_lines (problem_lines content problem) = content.
Proof.
  intros Hstart Hend. unfold problem_lines.
  rewrite Z.max_l by lia. rewrite array_slice_all by exact Hend.
  apply join_lines_split_lines.
Qed.

(** X30: [getContextItems] resolves exactly when the editor returns the
    problems and reads every file; it then returns one item per problem, in
    the order of the problems, each built from the content of the problem's
    file.  The query plays no part. *)
Theorem getContextItems_resolves (query : string) (items : list ContextItem) :
  getContextItems getBasename ide_getProblems ide_readFile query = Some items ↔
  ∃ problems,
    ide_getProblems = Some problems ∧
    Forall2 (λ problem item,
               ∃ content, ide_readFile (filepath problem) = Some content ∧
                          item = problem_item getBasename content problem)
      problems items.
Proof.
  unfold getContextItems. destruct ide_getProblems as [problems|]; cbn.
  - rewrite mapM_Some. split.
    + intros Hall. exists problems. split; [reflexivity |].
      eapply Forall2_impl; [exact Hall |]. cbn. intros problem item Hitem.
      destruct (ide_readFile (filepath problem)) as [content|]; [| discriminate].
      exists content. cbn in Hitem. injection Hitem as <-. split; reflexivity.
    + intros (problems' & Heq & Hall). injection Heq as <-.
      eapply Forall2_impl; [exact Hall |]. cbn. intros problem item (content & Hread & ->).
      rewrite Hread. reflexivity.
  - split; [discriminate | intros (problems & Heq & _); discriminate].
Qed.

End ProblemFacts.

(** ** The further results on concrete instances *)

Ltac solve_well_formed :=
  unfold well_formed; cbn [map fst];
  repeat (apply NoDup_cons_2;
          [intros Hin;
           repeat (apply elem_of_cons in Hin as [Hin|Hin]; [discriminate Hin |]);
           inversion Hin |]);
  apply NoDup_nil_2.

Lemma templated_llm_callbacks_return : callbacks_return templated_llm.
Proof.
  split.
  - intros f s Hf. injection Hf as <-. reflexivity.
  - intros f m p Hf. injection Hf as <-. reflexivity.
Defined.

Lemma streamComplete_trace_order_witness :
  trace_of (@streamComplete test_imports headless_host templated_llm "hi") default_options =
    [EWriteLog
       (_compileLogMessage templated_llm
          (@rendered_prompt test_imports templated_llm default_options "hi")
          (@effective_options test_imports templated_llm default_options));
     ERequestHook (JStr "codellama-7b")
       (@rendered_prompt test_imports templated_llm default_options "hi");
     EYield "a"; EYield "b"; EYield "c";
     EWriteLog ("Completion:" ++ String "010" (String "010"
                  ("abc" ++ String "010" (String "010" ""))))].
Proof.
  exact (@streamComplete_trace_order test_imports headless_host templated_llm "hi"
           default_options ["a"; "b"; "c"] headless_is_direct
           (or_intror templated_llm_callbacks_return) eq_refl).
Defined.

Lemma streamComplete_transport_failure_witness :
  outcome_of (@streamComplete test_imports headless_host failing_llm "hi") quiet_options =
    Thrown (MkError "socket hang up") ∧
  trace_of (@streamComplete test_imports headless_host failing_llm "hi") quiet_options =
    [EYield "par"; EYield "tial"].
Proof.
  exact (@streamComplete_transport_failure test_imports headless_host failing_llm "hi"
           quiet_options ["par"; "tial"] (MkError "socket hang up") headless_is_direct
           (or_introl eq_refl) eq_refl).
Defined.

Lemma streamComplete_log_off_witness :
  trace_of (@streamComplete test_imports headless_host failing_llm "hi") quiet_options =
    [EYield "par"; EYield "tial"].
Proof.
  exact (@streamComplete_log_off test_imports headless_host failing_llm "hi" quiet_options
           ["par"; "tial"] (Thrown (MkError "socket hang up")) headless_is_direct
           eq_refl eq_refl).
Defined.

Lemma streamChat_templated_path_witness :
  yields (trace_of (@streamChat test_imports headless_host templated_llm hello_messages)
            default_options) =
    [MkChatMessage assistant (Text "a"); MkChatMessage assistant (Text "b");
     MkChatMessage assistant (Text "c")] ∧
  outcome_of (@streamChat test_imports headless_host templated_llm hello_messages)
    default_options =
    Returned (LLMReturnValue.Mk (Some (_formatChatMessages hello_messages)) (Some "abc")).
Proof.
  exact (@streamChat_templated_path test_imports headless_host templated_llm hello_messages
           default_options _formatChatMessages ["a"; "b"; "c"] headless_is_direct
           (or_intror templated_llm_callbacks_return) eq_refl eq_refl).
Defined.

Lemma streamChat_native_path_witness :
  yields (trace_of (@streamChat test_imports headless_host abc_llm hello_messages)
            caller_options) =
    [MkChatMessage assistant (Text "x"); MkChatMessage assistant (Text "y")] ∧
  outcome_of (@streamChat test_imports headless_host abc_llm hello_messages) caller_options =
    Returned (LLMReturnValue.Mk (Some (_formatChatMessages hello_messages)) (Some "xy")).
Proof.
  exact (@streamChat_native_path test_imports headless_host abc_llm hello_messages
           caller_options _
           [MkChatMessage assistant (Text "x"); MkChatMessage assistant (Text "y")]
           headless_is_direct (or_introl eq_refl) eq_refl eq_refl eq_refl).
Defined.

Lemma streamChat_transport_failure_witness :
  outcome_of (@streamChat test_imports headless_host failing_templated_llm hello_messages)
    default_options = Thrown (MkError "socket hang up") ∧
  trace_of (@streamChat test_imports headless_host failing_templated_llm hello_messages)
    default_options =
    [EYield (MkChatMessage assistant (Text "par"));
     EYield (MkChatMessage assistant (Text "tial"));
     EConsoleLog (MkError "socket hang up")].
Proof.
  assert (Hcb : callbacks_return failing_templated_llm).
  { split; [intros f s Hf | intros f m p Hf]; discriminate Hf. }
  exact (@streamChat_transport_failure test_imports headless_host failing_templated_llm
           hello_messages default_options
           [MkChatMessage assistant (Text "par"); MkChatMessage assistant (Text "tial")]
           (MkError "socket hang up") headless_is_direct (or_intror Hcb) eq_refl).
Defined.

Lemma proxied_call_keeps_options_witness :
  options_after (@complete test_imports vscode_host abc_llm "hi") caller_options
    = caller_options ∧
  options_after (@streamComplete test_imports vscode_host abc_llm "hi") caller_options
    = caller_options ∧
  options_after (@streamChat test_imports vscode_host abc_llm hello_messages) caller_options
    = caller_options.
Proof.
  destruct (@proxied_call_keeps_options test_imports vscode_host abc_llm "hi" hello_messages
              caller_options vscode_is_proxied) as ([H1 _] & [H2 _] & [H3 _]).
  split; [exact H1 | split; [exact H2 | exact H3]].
Defined.

Lemma streamComplete_proxied_relays_host_witness :
  yields (trace_of (@streamComplete test_imports vscode_host abc_llm "hi") caller_options) =
    ["hel"; "lo"] ∧
  outcome_of (@streamComplete test_imports vscode_host abc_llm "hi") caller_options =
    Returned (LLMReturnValue.Mk (Some "hi") (Some "hello")).
Proof.
  exact (@streamComplete_proxied_relays_host test_imports vscode_host abc_llm "hi"
           caller_options vscode_is_proxied).
Defined.

Lemma chat_proxied_returns_assistant_witness :
  @chat test_imports vscode_host abc_llm hello_messages caller_options =
    (caller_options, ([], Returned (MkChatMessage assistant (Text "hello")))).
Proof.
  exact (@chat_proxied_returns_assistant test_imports vscode_host abc_llm hello_messages
           caller_options _ vscode_is_proxied eq_refl).
Defined.

Lemma complete_is_drained_streamComplete_witness :
  @complete test_imports headless_host templated_llm "hi" default_options =
    for_await_gen (@streamComplete test_imports headless_host templated_llm "hi") ""
      (λ completion chunk, completion ++ chunk) default_options.
Proof.
  exact (@complete_is_drained_streamComplete test_imports headless_host templated_llm "hi"
           default_options headless_is_direct eq_refl).
Defined.

Example complete_returns_concatenation :
  outcome_of (@complete test_imports headless_host templated_llm "hi") default_options =
    Returned "abc".
Proof. reflexivity. Qed.

Lemma new_BaseLLM_apiBase_witness :
  apiBase (@new_BaseLLM test_imports test_more_imports openai_like_class gpt4_options) =
    Some "https://x.com".
Proof.
  exact (proj1 (@new_BaseLLM_apiBase test_imports test_more_imports openai_like_class
                  gpt4_options "https://x.com/" eq_refl) "https://x.com" eq_refl).
Defined.

Lemma new_BaseLLM_self_templating_needs_native_chat_witness :
  templateMessages
    (llm (@new_BaseLLM test_imports test_more_imports openai_like_class gpt4_options)) = None ∧
  outcome_of
    (@streamChat test_imports headless_host
       (llm (@new_BaseLLM test_imports test_more_imports openai_like_class gpt4_options))
       hello_messages) quiet_options =
    Thrown (MkError "You must either implement templateMessages or _streamChat").
Proof.
  exact (@new_BaseLLM_self_templating_needs_native_chat test_imports test_more_imports
           headless_host openai_like_class gpt4_options hello_messages quiet_options
           eq_refl eq_refl eq_refl eq_refl headless_is_direct (or_introl eq_refl)).
Defined.

Lemma gpt4_completionOptions_well_formed :
  well_formed [("temperature", JOther "0.2"); ("maxTokens", JNum 0)].
Proof. solve_well_formed. Defined.

Lemma new_BaseLLM_completionOptions_witness :
  let co :=
    completionOptions
      (llm (@new_BaseLLM test_imports test_more_imports openai_like_class gpt4_options)) in
  Obj.get co "model" = JStr "gpt-4" ∧
  Obj.get co "maxTokens" = JNum 1024 ∧
  ∀ k, k ≠ "model" → k ≠ "maxTokens" →
    Obj.get co k = Obj.get [("temperature", JOther "0.2"); ("maxTokens", JNum 0)] k.
Proof.
  exact (@new_BaseLLM_completionOptions test_imports test_more_imports openai_like_class
           gpt4_options [("temperature", JOther "0.2"); ("maxTokens", JNum 0)]
           eq_refl eq_refl gpt4_completionOptions_well_formed).
Defined.

Lemma test_DEFAULT_ARGS_well_formed : well_formed (@DEFAULT_ARGS test_more_imports).
Proof. solve_well_formed. Defined.

Lemma caller_options_well_formed : well_formed caller_options.
Proof. solve_well_formed. Defined.

Lemma collectArgs_precedence_witness :
  Obj.get (@collectArgs test_more_imports caller_options) "maxTokens" = JNum 256 ∧
  Obj.get (@collectArgs test_more_imports quiet_options) "maxTokens" = JNum 2048.
Proof.
  assert (Hquiet : well_formed quiet_options) by solve_well_formed.
  split.
  - exact (@collectArgs_precedence test_more_imports caller_options "maxTokens"
             test_DEFAULT_ARGS_well_formed caller_options_well_formed).
  - exact (@collectArgs_precedence test_more_imports quiet_options "maxTokens"
             test_DEFAULT_ARGS_well_formed Hquiet).
Defined.

Lemma problem_lines_window_witness :
  (∀ i, (1 ≤ i ≤ 4)%Z →
     problem_lines six_lines problem_on_line_3 !! Z.to_nat (i - 1) =
       split_lines six_lines !! Z.to_nat i) ∧
  (List.length (problem_lines six_lines problem_on_line_3) ≤ 4)%nat.
Proof.
  exact (problem_lines_window six_lines problem_on_line_3 ltac:(vm_compute; discriminate)).
Defined.

Example problem_lines_run :
  problem_lines six_lines problem_on_line_3 = ["b"; "c"; "d"; "e"].
Proof. reflexivity. Qed.

Lemma problem_lines_whole_file_witness :
  join_lines
    (problem_lines six_lines
       (MkProblem "/src/main.ts" (MkRange (MkPosition 1 0) (MkPosition 4 0)) "unused"))
  = six_lines.
Proof.
  exact (problem_lines_whole_file six_lines
           (MkProblem "/src/main.ts" (MkRange (MkPosition 1 0) (MkPosition 4 0)) "unused")
           ltac:(vm_compute; discriminate) ltac:(vm_compute; discriminate)).
Defined.

Lemma autodetectTemplateType_undefined_iff_witness :
  autodetectTemplateType "Llama-gpt-mix" = None.
Proof.
  apply (proj2 (autodetectTemplateType_undefined_iff "Llama-gpt-mix")).
  split; reflexivity.
Defined.

Lemma autodetectTemplateFunction_null_iff_witness :
  autodetectTemplateFunction "gemini-pro" "replicate" None = None.
Proof.
  apply (autodetectTemplateFunction_null_iff "gemini-pro" "replicate").
  right. reflexivity.
Defined.

Lemma autodetectTemplateFunction_explicit_witness :
  autodetectTemplateFunction "codellama-7b" "replicate" (Some none) = None.
Proof.
  apply (proj2 (autodetectTemplateFunction_explicit "codellama-7b" "" "replicate" "" none)).
  reflexivity.
Defined.

Lemma autodetectPromptTemplates_only_edit_witness :
  autodetectPromptTemplates "codellama-7b" None !! "chat" = None.
Proof.
  apply (proj1 (autodetectPromptTemplates_only_edit "codellama-7b" None) "chat").
  discriminate.
Defined.

Lemma mistralEditPrompt_iff_witness :
  autodetectPromptTemplates "mistral-7b" None !! "edit" = Some mistralEditPrompt.
Proof.
  apply (mistralEditPrompt_iff "mistral-7b" None). split; reflexivity.
Defined.

Lemma findLastIndex_not_found_witness :
  findLastIndex [ImageUrlPart "u"; ImageUrlPart "v"]
    (λ part _ _, match part with TextPart _ => true | ImageUrlPart _ => false end) = (-1)%Z.
Proof.
  apply findLastIndex_not_found.
  intros i x Hx. destruct i as [|[|i]]; cbn in Hx;
    try discriminate Hx; injection Hx as <-; reflexivity.
Defined.

Lemma getContextItems_resolves_witness :
  getContextItems (λ path, "main.ts") (Some [problem_on_line_3]) (λ _, Some six_lines) ""
  = Some [problem_item (λ path, "main.ts") six_lines problem_on_line_3].
Proof.
  apply getContextItems_resolves. exists [problem_on_line_3]. split; [reflexivity |].
  constructor; [| constructor].
  exists six_lines. split; reflexivity.
Defined.

Example getContextItems_rejects_with_a_read :
  getContextItems (λ path, "main.ts") (Some [problem_on_line_3; problem_on_line_3])
    (λ _, None) "" = None.
Proof. reflexivity. Qed.
